(** * Watchtower root command: a shallow embedding of [cmd/root.go]

    The development follows the source file top to bottom: the process-wide
    configuration, [PreRun], [Run], [formatDuration], the update session
    [runUpdatesWithNotifications], and the scheduler loop
    [runUpgradesOnSchedule] with the single-slot update lock. *)

From Stdlib Require Import ZArith Lia Bool String Ascii List.
From Stdlib Require Import Floats Uint63 DecimalString.
From stdpp Require Import base list.

Local Open Scope Z_scope.

(** ** Go's [time.Duration] and the float64 views used by [formatDuration] *)

Module GoTime.

(** A [time.Duration] is an int64 count of nanoseconds. *)
Definition Duration := Z.

Definition Nanosecond : Duration := 1.
Definition Second : Duration := 1000000000.
Definition Minute : Duration := 60 * Second.
Definition Hour : Duration := 60 * Minute.

Definition minInt64 : Z := - 2 ^ 63.

(** [float64(x)] for an int64 [x]. *)
Definition float64 (z : Z) : float :=
  if z <? 0 then PrimFloat.opp (PrimFloat.of_uint63 (Uint63.of_Z (- z)))
  else PrimFloat.of_uint63 (Uint63.of_Z z).

(** [int64(f)] for a float64 [f]: truncation toward zero. *)
Definition int64 (f : float) : Z :=
  match Prim2SF f with
  | S754_finite s m e =>
      let a := if 0 <=? e then Zpos m * 2 ^ e else Z.quot (Zpos m) (2 ^ (- e)) in
      if s then - a else a
  | _ => 0
  end.

(** [math.Mod(x, y)]: the exact floating-point remainder, with the sign of
    [x]. Both operands are written as integers over a common power of two,
    where the remainder is the integer one. *)
Definition Mod (x y : float) : float :=
  match Prim2SF x, Prim2SF y with
  | S754_nan, _ | _, S754_nan | S754_infinity _, _ | _, S754_zero _ => PrimFloat.nan
  | S754_zero _, _ | _, S754_infinity _ => x
  | S754_finite sx mx ex, S754_finite _ my ey =>
      let e := Z.min ex ey in
      let X := Zpos mx * 2 ^ (ex - e) in
      let Y := Zpos my * 2 ^ (ey - e) in
      let R := Z.rem X Y in
      let r := Z.ldexp (float64 R) e in
      if sx then PrimFloat.opp r else r
  end.

(** [Duration.Hours], [Duration.Minutes] and [Duration.Seconds] of the Go
    standard library: the integer quotient plus the fractional rest. *)
Definition Hours (d : Duration) : float :=
  let hour := Z.quot d Hour in
  let nsec := Z.rem d Hour in
  (float64 hour + float64 nsec / (60 * 60 * 1e9))%float.

Definition Minutes (d : Duration) : float :=
  let min := Z.quot d Minute in
  let nsec := Z.rem d Minute in
  (float64 min + float64 nsec / (60 * 1e9))%float.

Definition Seconds (d : Duration) : float :=
  let sec := Z.quot d Second in
  let nsec := Z.rem d Second in
  (float64 sec + float64 nsec / 1e9)%float.

End GoTime.

(** ** [strings.Builder] and [strconv.FormatInt] *)

Module GoStrings.

(** A builder is the sequence of chunks written so far; [String] joins
    them. *)
Definition Builder := list string.

Definition newBuilder : Builder := [].
Definition WriteString (sb : Builder) (s : string) : Builder := sb ++ [s].
Definition String (sb : Builder) : string := fold_right append EmptyString sb.

(** [strconv.FormatInt(i, 10)]. *)
Definition FormatInt (i : Z) : string := NilEmpty.string_of_int (Z.to_int i).

(** [strings.Join]. *)
Fixpoint Join (elems : list string) (sep : string) : string :=
  match elems with
  | [] => EmptyString
  | [e] => e
  | e :: rest => e ++ sep ++ Join rest sep
  end.

End GoStrings.

(** ** [formatDuration] *)

Module Format.
Import GoTime GoStrings.
Local Open Scope string_scope.
Local Open Scope Z_scope.

(** The three integer components read off the duration. *)
Definition hoursOf (d : Duration) : Z := int64 (Hours d).
Definition minutesOf (d : Duration) : Z := int64 (Mod (Minutes d) 60).
Definition secondsOf (d : Duration) : Z := int64 (Mod (Seconds d) 60).

(** The body of [formatDuration] after the components are computed: the
    writes into the builder, in source order. *)
Definition formatWrites (hours minutes seconds : Z) : Builder :=
  let sb := newBuilder in
  let sb :=
    if hours =? 1 then WriteString sb "1 hour"
    else if negb (hours =? 0) then
      WriteString (WriteString sb (FormatInt hours)) " hours"
    else sb in
  let sb :=
    if negb (hours =? 0) && (negb (seconds =? 0) || negb (minutes =? 0))
    then WriteString sb ", " else sb in
  let sb :=
    if minutes =? 1 then WriteString sb "1 minute"
    else if negb (minutes =? 0) then
      WriteString (WriteString sb (FormatInt minutes)) " minutes"
    else sb in
  let sb :=
    if negb (minutes =? 0) && negb (seconds =? 0)
    then WriteString sb ", " else sb in
  let sb :=
    if seconds =? 1 then WriteString sb "1 second"
    else if negb (seconds =? 0) || ((hours =? 0) && (minutes =? 0)) then
      WriteString (WriteString sb (FormatInt seconds)) " seconds"
    else sb in
  sb.

Definition durationWrites (d : Duration) : Builder :=
  formatWrites (hoursOf d) (minutesOf d) (secondsOf d).

Definition formatDuration (d : Duration) : string :=
  String (durationWrites d).

End Format.

(** ** Values exchanged with the collaborating packages *)

(** Go [error] values; [http.ErrServerClosed] is the one the code tells
    apart. *)
Inductive error :=
| ErrServerClosed
| errorString (msg : string).

Definition Error (e : error) : string :=
  match e with
  | ErrServerClosed => "http: Server closed"
  | errorString msg => msg
  end.

Definition is_ErrServerClosed (e : error) : bool :=
  match e with ErrServerClosed => true | _ => false end.

(** [metrics.Metric]: the three counters the session logs. *)
Record Metric := {
  Scanned : Z;
  Updated : Z;
  Failed : Z
}.

(** What this file observes of a [time.Time]: whether it is the zero time,
    its rendering and the time left until it. *)
Record Time := {
  IsZero : bool;
  TimeFormat : string;
  Until : GoTime.Duration
}.

Definition zeroTime : Time :=
  {| IsZero := true; TimeFormat := "0001-01-01 00:00:00 +0000 UTC"; Until := GoTime.minInt64 |}.

(** The packages [filters], [actions] and [metrics] are used through their
    interfaces only: a filter type with its two constructors, the report type
    of an update and the metric computed from it. *)
Class Collaborators := {
  Filter : Type;
  Report : Type;
  nilReport : Report;
  BuildFilter : list string -> list string -> bool -> string -> Filter * string;
  FilterByImage : list string -> Filter -> Filter;
  NewMetric : Report -> Metric
}.

(** ** Buffered channels of [bool], as the update lock uses them *)

Module Chan.

Record t := {
  cap : nat;
  buf : list bool
}.

(** [make(chan bool, n)] *)
Definition make (n : nat) : t := {| cap := n; buf := [] |}.

(** [c <- v]: [None] when the send would block. *)
Definition send (c : t) (v : bool) : option t :=
  if (length (buf c) <? cap c)%nat
  then Some {| cap := cap c; buf := buf c ++ [v] |}
  else None.

(** [<-c]: [None] when the receive would block. *)
Definition recv (c : t) : option (bool * t) :=
  match buf c with
  | v :: rest => Some (v, {| cap := cap c; buf := rest |})
  | [] => None
  end.

End Chan.

(** ** The root command *)

Module Watchtower.
Import GoTime GoStrings Format.
Local Open Scope string_scope.
Local Open Scope Z_scope.

Section Program.
Context `{Collaborators}.

(** *** Configuration *)

(** The parsed command line, one field per option the file reads. *)
Record FlagSet := {
  flag_schedule : string;
  flag_cleanup : bool;
  flag_no_restart : bool;
  flag_monitor_only : bool;
  flag_timeout : Duration;
  flag_label_enable : bool;
  flag_disable_containers : list string;
  flag_enable_lifecycle_hooks : bool;
  flag_rolling_restart : bool;
  flag_scope : string;
  flag_label_take_precedence : bool;
  flag_no_pull : bool;
  flag_include_stopped : bool;
  flag_include_restarting : bool;
  flag_revive_stopped : bool;
  flag_remove_volumes : bool;
  flag_warn_on_head_failure : string;
  flag_disable_memory_swappiness : bool;
  flag_run_once : bool;
  flag_http_api_update : bool;
  flag_http_api_metrics : bool;
  flag_http_api_periodic_polls : bool;
  flag_http_api_token : string;
  flag_health_check : bool;
  flag_no_startup_message : bool
}.

(** Modelled from the spec: [flags.ReadFlags] is not part of the sources;
    it yields the values of the options cleanup, no-restart, monitor-only
    and timeout. *)
Definition ReadFlags (f : FlagSet) : bool * bool * bool * Duration :=
  (flag_cleanup f, flag_no_restart f, flag_monitor_only f, flag_timeout f).

(** The package-level variables that [PreRun] sets and the rest reads. *)
Record Globals := {
  scheduleSpec : string;
  cleanup : bool;
  noRestart : bool;
  noPull : bool;
  monitorOnly : bool;
  enableLabel : bool;
  disableContainers : list string;
  timeout : Duration;
  lifecycleHooks : bool;
  rollingRestart : bool;
  scope : string;
  labelPrecedence : bool
}.

(** [container.ClientOptions] *)
Record ClientOptions := {
  IncludeStopped : bool;
  ReviveStopped : bool;
  RemoveVolumes : bool;
  IncludeRestarting : bool;
  DisableMemorySwappiness : bool;
  WarnOnHeadFailed : string
}.

(** [types.UpdateParams] *)
Record UpdateParams := {
  up_Filter : Filter;
  up_Cleanup : bool;
  up_NoRestart : bool;
  up_Timeout : Duration;
  up_MonitorOnly : bool;
  up_LifecycleHooks : bool;
  up_RollingRestart : bool;
  up_LabelPrecedence : bool;
  up_NoPull : bool
}.

(** *** Observable actions *)

Inductive Level := FatalLevel | ErrorLevel | WarnLevel | InfoLevel | DebugLevel.
Inductive Logger := StandardLogger | LocalLog.

(** The calls the command makes on its collaborators, in the order made. *)
Inductive Event :=
| EvLog (l : Logger) (lvl : Level) (args : list string)
| EvLogf (l : Logger) (lvl : Level) (format : string) (args : list string)
| EvLogFields (l : Logger) (lvl : Level) (fields : list (string * Z)) (msg : string)
| EvSleep (d : Duration)
| EvNewClient (o : ClientOptions)
| EvNewNotifier
| EvAddLogHook
| EvStartNotification
| EvSendNotification (r : Report)
| EvNotifierClose
| EvCheckForSanity (f : Filter) (rolling : bool)
| EvCheckForMultipleWatchtowerInstances (cleanup : bool) (scope : string)
| EvUpdate (p : UpdateParams)
| EvRegisterScan (m : option Metric)
| EvAPINew (token : string)
| EvAPIRegisterUpdate
| EvAPIRegisterMetrics
| EvAPIStart (block : bool)
| EvCronNew
| EvCronAddFunc (spec : string)
| EvCronStart
| EvCronStop
| EvSignalNotify
| EvExit (code : Z).

(** How a computation that does not hand back a value ends. *)
Inductive Outcome :=
| Exited (code : Z)
| Blocked
| Panicked.

Inductive Result (A : Type) :=
| Continue (a : A)
| Stop (o : Outcome).
Global Arguments Continue {A} a.
Global Arguments Stop {A} o.

(** A process fragment: the actions performed, and either a value to go on
    with or the way the goroutine stopped. *)
Definition Proc (A : Type) : Type := list Event * Result A.

Definition ret {A} (a : A) : Proc A := ([], Continue a).

Definition bind {A B} (m : Proc A) (k : A -> Proc B) : Proc B :=
  match m with
  | (t, Continue a) => let '(t', r) := k a in ((t ++ t')%list, r)
  | (t, Stop o) => (t, Stop o)
  end.

Definition emit (e : Event) : Proc unit := ([e], Continue tt).
Definition stop {A} (o : Outcome) : Proc A := ([], Stop o).

Definition when (b : bool) (m : Proc unit) : Proc unit :=
  if b then m else ret tt.

Notation "x <- m ;; k" := (bind m (fun x => k))
  (at level 100, m at next level, right associativity).
Notation "m ;; k" := (bind m (fun _ : unit => k))
  (at level 100, right associativity).

(** [log.Fatal]: the entry is written and the process exits with status 1. *)
Definition logFatal {A} (args : list string) : Proc A :=
  emit (EvLog StandardLogger FatalLevel args) ;;
  emit (EvExit 1) ;;
  stop (Exited 1).

Definition logFatalf {A} (format : string) (args : list string) : Proc A :=
  emit (EvLogf StandardLogger FatalLevel format args) ;;
  emit (EvExit 1) ;;
  stop (Exited 1).

(** [os.Exit] *)
Definition osExit {A} (code : Z) : Proc A :=
  emit (EvExit code) ;;
  stop (Exited code).

Definition logError (args : list string) : Proc unit :=
  emit (EvLog StandardLogger ErrorLevel args).

(** *** The environment *)

(** What [actions.Update] does when called: it returns a report and
    possibly an error, or it panics. *)
Inductive UpdateOutcome :=
| UpdateReturns (result : Report) (err : option error)
| UpdatePanics.

(** The answers of the operating system, the Docker client, the HTTP
    server and the cron library to the calls made on them. For
    [APIStart], [None] is a server that keeps serving and never returns. *)
Record World := {
  Version : string;
  Getpid : Z;
  SetupLogging : option error;
  EnvConfig : option error;
  CheckForSanity : option error;
  CheckForMultipleWatchtowerInstances : option error;
  APIStart : bool -> option (option error);
  GetNames : list string;
  TraceLevelEnabled : bool;
  AddFunc : string -> option error;
  FirstRun : Time;
  Update : UpdateOutcome;
  Interrupt : bool;
  LockFreed : bool
}.

(** *** [PreRun] *)

Definition timeoutMessage : string :=
  "Please specify a positive value for timeout value.".

Definition noPullMonitorOnlyWarning : string :=
  "Using `WATCHTOWER_NO_PULL` and `WATCHTOWER_MONITOR_ONLY` simultaneously might lead to no action being taken at all. If this is intentional, you may safely ignore this message.".

(** The flag set is taken after [flags.ProcessFlagAliases] and
    [flags.GetSecretsFromFiles] have rewritten it. *)
Definition PreRun (f : FlagSet) (w : World) : Proc Globals :=
  match SetupLogging w with
  | Some err => logFatalf "Failed to initialize logging: %s" [Error err]
  | None => ret tt
  end ;;
  let scheduleSpec := flag_schedule f in
  let '(cleanup, noRestart, monitorOnly, timeout) := ReadFlags f in
  (if timeout <? 0 then logFatal [timeoutMessage] else ret tt) ;;
  let enableLabel := flag_label_enable f in
  let disableContainers := flag_disable_containers f in
  let lifecycleHooks := flag_enable_lifecycle_hooks f in
  let rollingRestart := flag_rolling_restart f in
  let scope := flag_scope f in
  let labelPrecedence := flag_label_take_precedence f in
  when (negb (String.eqb scope ""))
       (emit (EvLogf StandardLogger DebugLevel "Using scope %q" [scope])) ;;
  match EnvConfig w with
  | Some err => logFatal [Error err]
  | None => ret tt
  end ;;
  let noPull := flag_no_pull f in
  let includeStopped := flag_include_stopped f in
  let includeRestarting := flag_include_restarting f in
  let reviveStopped := flag_revive_stopped f in
  let removeVolumes := flag_remove_volumes f in
  let warnOnHeadPullFailed := flag_warn_on_head_failure f in
  let disableMemorySwappiness := flag_disable_memory_swappiness f in
  when (monitorOnly && noPull)
       (emit (EvLog StandardLogger WarnLevel [noPullMonitorOnlyWarning])) ;;
  emit (EvNewClient {| IncludeStopped := includeStopped;
                       ReviveStopped := reviveStopped;
                       RemoveVolumes := removeVolumes;
                       IncludeRestarting := includeRestarting;
                       DisableMemorySwappiness := disableMemorySwappiness;
                       WarnOnHeadFailed := warnOnHeadPullFailed |}) ;;
  emit EvNewNotifier ;;
  emit EvAddLogHook ;;
  ret {| scheduleSpec := scheduleSpec;
         cleanup := cleanup;
         noRestart := noRestart;
         noPull := noPull;
         monitorOnly := monitorOnly;
         enableLabel := enableLabel;
         disableContainers := disableContainers;
         timeout := timeout;
         lifecycleHooks := lifecycleHooks;
         rollingRestart := rollingRestart;
         scope := scope;
         labelPrecedence := labelPrecedence |}.

(** *** [logNotifyExit], [awaitDockerClient] *)

Definition logNotifyExit {A} (err : error) : Proc A :=
  logError [Error err] ;;
  emit EvNotifierClose ;;
  osExit 1.

Definition awaitDockerClient : Proc unit :=
  emit (EvLog StandardLogger DebugLevel
          ["Sleeping for a second to ensure the docker api client has been properly initialized."]) ;;
  emit (EvSleep (1 * Second)).

(** *** [writeStartupMessage] *)

Definition writeStartupMessage (c : FlagSet) (w : World) (sched : Time)
    (filtering : string) : Proc unit :=
  let noStartupMessage := flag_no_startup_message c in
  let enableUpdateAPI := flag_http_api_update c in
  startupLog <- (if noStartupMessage then ret LocalLog
                 else (emit EvStartNotification ;; ret StandardLogger)) ;;
  emit (EvLog startupLog InfoLevel ["Watchtower "; Version w]) ;;
  let notifierNames := GetNames w in
  (if (0 <? length notifierNames)%nat
   then emit (EvLog startupLog InfoLevel
                ["Using notifications: " ++ Join notifierNames ", "])
   else emit (EvLog startupLog InfoLevel ["Using no notifications"])) ;;
  emit (EvLog startupLog InfoLevel [filtering]) ;;
  (if negb (IsZero sched) then
     let until := formatDuration (Until sched) in
     emit (EvLog startupLog InfoLevel ["Scheduling first run: " ++ TimeFormat sched]) ;;
     emit (EvLog startupLog InfoLevel
             ["Note that the first check will be performed in " ++ until])
   else if flag_run_once c then
     emit (EvLog startupLog InfoLevel ["Running a one time update."])
   else
     emit (EvLog startupLog InfoLevel ["Periodic runs are not enabled."])) ;;
  when enableUpdateAPI
       (emit (EvLog startupLog InfoLevel ["The HTTP API is enabled at :8080."])) ;;
  when (negb noStartupMessage) (emit (EvSendNotification nilReport)) ;;
  when (TraceLevelEnabled w)
       (emit (EvLog startupLog WarnLevel
                ["Trace level enabled: log will include sensitive information as credentials and tokens"])).

(** *** [runUpdatesWithNotifications] *)

Definition sessionParams (g : Globals) (filter : Filter) : UpdateParams :=
  {| up_Filter := filter;
     up_Cleanup := cleanup g;
     up_NoRestart := noRestart g;
     up_Timeout := timeout g;
     up_MonitorOnly := monitorOnly g;
     up_LifecycleHooks := lifecycleHooks g;
     up_RollingRestart := rollingRestart g;
     up_LabelPrecedence := labelPrecedence g;
     up_NoPull := noPull g |}.

(** The session up to the point where [actions.Update] is entered. *)
Definition sessionBegin (g : Globals) (filter : Filter) : Proc UpdateParams :=
  emit EvStartNotification ;;
  let updateParams := sessionParams g filter in
  emit (EvUpdate updateParams) ;;
  ret updateParams.

(** The session from the point where [actions.Update] gives control
    back. *)
Definition sessionFinish (u : UpdateOutcome) : Proc Metric :=
  match u with
  | UpdatePanics => stop Panicked
  | UpdateReturns result err =>
      match err with
      | Some e => logError [Error e]
      | None => ret tt
      end ;;
      emit (EvSendNotification result) ;;
      let metricResults := NewMetric result in
      emit (EvLogFields LocalLog InfoLevel
              [("Scanned", Scanned metricResults);
               ("Updated", Updated metricResults);
               ("Failed", Failed metricResults)]
              "Session done") ;;
      ret metricResults
  end.

Definition runUpdatesWithNotifications (g : Globals) (filter : Filter)
    (u : UpdateOutcome) : Proc Metric :=
  _ <- sessionBegin g filter ;;
  sessionFinish u.

(** The function handed to [update.New]: one session over the filter
    narrowed to the requested images, and its metric registered. *)
Definition updateFunc (g : Globals) (filter : Filter) (images : list string)
    (u : UpdateOutcome) : Proc unit :=
  metric <- runUpdatesWithNotifications g (FilterByImage images filter) u ;;
  emit (EvRegisterScan (Some metric)).

(** *** [runUpgradesOnSchedule], as the main goroutine goes through it *)

(** [make(chan bool, 1)] followed by [lock <- true]. *)
Definition newUpdateLock : option Chan.t := Chan.send (Chan.make 1) true.

(** The lock the scheduler works with: the one passed in, or a fresh
    seeded one when the argument is nil. *)
Definition schedulerLock (lock : option Chan.t) : option Chan.t :=
  match lock with
  | None => newUpdateLock
  | Some l => Some l
  end.

Definition waitingMessage : string :=
  "Waiting for running update to be finished...".

Definition runUpgradesOnSchedule (g : Globals) (c : FlagSet) (w : World)
    (filter : Filter) (filtering : string) (lock : option Chan.t)
    : Proc (option error) :=
  let lock := schedulerLock lock in
  emit EvCronNew ;;
  emit (EvCronAddFunc (scheduleSpec g)) ;;
  match AddFunc w (scheduleSpec g) with
  | Some err => ret (Some err)
  | None =>
      writeStartupMessage c w (FirstRun w) filtering ;;
      emit EvCronStart ;;
      emit EvSignalNotify ;;
      emit EvSignalNotify ;;
      (if Interrupt w then ret tt else stop Blocked) ;;
      emit EvCronStop ;;
      emit (EvLog StandardLogger InfoLevel [waitingMessage]) ;;
      (if LockFreed w then ret tt else stop Blocked) ;;
      ret None
  end.

(** *** [Run] *)

Definition healthCheckMessage : string :=
  "The health check flag should never be passed to the main watchtower container process".

Definition rollingMonitorMessage : string :=
  "Rolling restarts is not compatible with the global monitor only flag".

Definition Run (g : Globals) (c : FlagSet) (names : list string) (w : World)
    : Proc unit :=
  let '(filter, filterDesc) :=
    BuildFilter names (disableContainers g) (enableLabel g) (scope g) in
  let runOnce := flag_run_once c in
  let enableUpdateAPI := flag_http_api_update c in
  let enableMetricsAPI := flag_http_api_metrics c in
  let unblockHTTPAPI := flag_http_api_periodic_polls c in
  let apiToken := flag_http_api_token c in
  let healthCheck := flag_health_check c in
  (if healthCheck then
     (if Getpid w =? 1 then
        emit (EvSleep (1 * Second)) ;;
        logFatal [healthCheckMessage]
      else ret tt) ;;
     osExit 0
   else ret tt) ;;
  (if rollingRestart g && monitorOnly g
   then logFatal [rollingMonitorMessage] else ret tt) ;;
  awaitDockerClient ;;
  emit (EvCheckForSanity filter (rollingRestart g)) ;;
  match CheckForSanity w with
  | Some err => logNotifyExit err
  | None => ret tt
  end ;;
  if runOnce then
    writeStartupMessage c w zeroTime filterDesc ;;
    _ <- runUpdatesWithNotifications g filter (Update w) ;;
    emit EvNotifierClose ;;
    osExit 0
  else
    emit (EvCheckForMultipleWatchtowerInstances (cleanup g) (scope g)) ;;
    match CheckForMultipleWatchtowerInstances w with
    | Some err => logNotifyExit err
    | None => ret tt
    end ;;
    let updateLock := newUpdateLock in
    emit (EvAPINew apiToken) ;;
    when enableUpdateAPI
         (emit EvAPIRegisterUpdate ;;
          when (negb unblockHTTPAPI)
               (writeStartupMessage c w zeroTime filterDesc)) ;;
    when enableMetricsAPI (emit EvAPIRegisterMetrics) ;;
    emit (EvAPIStart (enableUpdateAPI && negb unblockHTTPAPI)) ;;
    started <- match APIStart w (enableUpdateAPI && negb unblockHTTPAPI) with
               | None => stop Blocked
               | Some r => ret r
               end ;;
    match started with
    | Some err =>
        when (negb (is_ErrServerClosed err))
             (logError ["failed to start API"; Error err])
    | None => ret tt
    end ;;
    scheduled <- runUpgradesOnSchedule g c w filter filterDesc updateLock ;;
    match scheduled with
    | Some err => logError [Error err]
    | None => ret tt
    end ;;
    osExit 1.

(** The command as cobra runs it: [PreRun], then [Run]. *)
Definition Execute (f : FlagSet) (names : list string) (w : World) : Proc unit :=
  g <- PreRun f w ;;
  Run g f names w.

(** *** The goroutines that take the update lock *)

(** A goroutine is started by the cron scheduler for a tick, or by the
    HTTP server for a request on [/v1/update] carrying image names. *)
Inductive Origin :=
| Tick
| Request (images : list string).

(** The filter a goroutine runs its session over: the scheduled function
    closes over [filter]; the function given to [update.New] narrows it
    with [filters.FilterByImage]. *)
Definition filterOf (filter : Filter) (o : Origin) : Filter :=
  match o with
  | Tick => filter
  | Request images => FilterByImage images filter
  end.

Inductive Ending :=
| Skipped
| Completed (m : Metric)
| Crashed.

(** Program points of a goroutine. From [Holding] to [Leaving] the token
    is out of the channel and a deferred [lock <- v] is pending. *)
Inductive PC :=
| AtSelect
| Holding (v : bool)
| Updating (v : bool)
| Leaving (v : bool) (r : option Metric)
| Finished (e : Ending).

Record Goroutine := {
  origin : Origin;
  pc : PC;
  trace : list Event
}.

Definition spawn (o : Origin) : Goroutine :=
  {| origin := o; pc := AtSelect; trace := [] |}.

Definition at_pc (gr : Goroutine) (p : PC) (es : list Event) : Goroutine :=
  {| origin := origin gr; pc := p; trace := (trace gr ++ es)%list |}.

(** The end of the scheduled function: the next run is logged when the
    scheduler has entries. [nextRuns] renders [scheduler.Entries()]. *)
Definition logNextRuns (nextRuns : list string) : Proc unit :=
  match nextRuns with
  | next :: _ => emit (EvLog StandardLogger DebugLevel ["Scheduled next run: " ++ next])
  | [] => ret tt
  end.

(** The [default] branch of the scheduled function's [select]. *)
Definition tickSkipped (nextRuns : list string) : Proc unit :=
  emit (EvRegisterScan None) ;;
  emit (EvLog StandardLogger DebugLevel ["Skipped another update already running."]) ;;
  logNextRuns nextRuns.

(** Modelled from the spec: the handler built by [update.New] is not part
    of the sources. Per the spec it takes the token without blocking, runs
    the given function and releases the token on all exit paths; when the
    slot is empty it skips the attempt and records a skipped (null)
    metric. *)
Definition requestSkipped : Proc unit :=
  emit (EvRegisterScan None).

Definition skipped (o : Origin) (nextRuns : list string) : Proc unit :=
  match o with
  | Tick => tickSkipped nextRuns
  | Request _ => requestSkipped
  end.

(** What a goroutine holding the token does once [actions.Update] gives
    control back: the rest of the session, the metric registered, and for
    a tick the log of the next run. *)
Definition afterUpdate (o : Origin) (u : UpdateOutcome)
    (nextRuns : list string) : Proc Metric :=
  metric <- sessionFinish u ;;
  emit (EvRegisterScan (Some metric)) ;;
  match o with
  | Tick => logNextRuns nextRuns
  | Request _ => ret tt
  end ;;
  ret metric.

Definition ending (r : option Metric) : Ending :=
  match r with
  | Some m => Completed m
  | None => Crashed
  end.

(** One step of a goroutine against the lock. [None]: the goroutine is
    blocked or has ended. *)
Definition gstep (g : Globals) (filter : Filter) (lock : Chan.t)
    (gr : Goroutine) (u : UpdateOutcome) (nextRuns : list string)
    : option (Chan.t * Goroutine) :=
  match pc gr with
  | AtSelect =>
      match Chan.recv lock with
      | Some (v, lock') => Some (lock', at_pc gr (Holding v) [])
      | None =>
          Some (lock, at_pc gr (Finished Skipped) (fst (skipped (origin gr) nextRuns)))
      end
  | Holding v =>
      Some (lock, at_pc gr (Updating v) (fst (sessionBegin g (filterOf filter (origin gr)))))
  | Updating v =>
      match afterUpdate (origin gr) u nextRuns with
      | (es, Continue m) => Some (lock, at_pc gr (Leaving v (Some m)) es)
      | (es, Stop _) => Some (lock, at_pc gr (Leaving v None) es)
      end
  | Leaving v r =>
      match Chan.send lock v with
      | Some lock' => Some (lock', at_pc gr (Finished (ending r)) [])
      | None => None
      end
  | Finished _ => None
  end.

(** The function given to [scheduler.AddFunc], run from its first to its
    last statement with no other goroutine in between: the trace, and the
    lock as the deferred send leaves it ([None] if that send blocked). *)
Definition scheduledFunc (g : Globals) (filter : Filter) (lock : Chan.t)
    (u : UpdateOutcome) (nextRuns : list string)
    : list Event * option Chan.t :=
  match Chan.recv lock with
  | Some (v, lock') =>
      let body :=
        (metric <- runUpdatesWithNotifications g filter u ;;
         emit (EvRegisterScan (Some metric)) ;;
         logNextRuns nextRuns) in
      (fst body, Chan.send lock' v)
  | None => (fst (tickSkipped nextRuns), Some lock)
  end.

(** Up to [n] steps of one goroutine, alone with the lock. *)
Fixpoint gsteps (n : nat) (g : Globals) (filter : Filter) (lock : Chan.t)
    (gr : Goroutine) (u : UpdateOutcome) (nextRuns : list string)
    : Chan.t * Goroutine :=
  match n with
  | O => (lock, gr)
  | S n' =>
      match gstep g filter lock gr u nextRuns with
      | Some (lock', gr') => gsteps n' g filter lock' gr' u nextRuns
      | None => (lock, gr)
      end
  end.

(** *** The process from the creation of the lock on *)

(** Program points of the main goroutine: in [Run] between the creation
    of the lock and the start of the scheduler, then inside
    [runUpgradesOnSchedule]. *)
Inductive MainPC :=
| Starting
| AwaitSignal
| Stopping
| Draining
| Returned (r : option error).

Record State := {
  lock : Chan.t;
  cron : bool;
  main : MainPC;
  pool : list Goroutine;
  exited : option Z
}.

Inductive Action :=
| ActFire
| ActRequest (images : list string)
| ActGo (i : nat) (u : UpdateOutcome) (nextRuns : list string)
| ActSignal
| ActMain.

Definition initial (l : Chan.t) : State :=
  {| lock := l; cron := false; main := Starting; pool := []; exited := None |}.

Definition set_main (st : State) (m : MainPC) : State :=
  {| lock := lock st; cron := cron st; main := m; pool := pool st; exited := exited st |}.

Definition set_pool (st : State) (l : Chan.t) (p : list Goroutine) : State :=
  {| lock := l; cron := cron st; main := main st; pool := p; exited := exited st |}.

(** The next statement of the main goroutine. *)
Definition main_step (g : Globals) (c : FlagSet) (w : World) (st : State)
    : option State :=
  match main st with
  | Starting =>
      match APIStart w (flag_http_api_update c && negb (flag_http_api_periodic_polls c)) with
      | None => None
      | Some _ =>
          match AddFunc w (scheduleSpec g) with
          | Some err => Some (set_main st (Returned (Some err)))
          | None =>
              Some {| lock := lock st; cron := true; main := AwaitSignal;
                      pool := pool st; exited := exited st |}
          end
      end
  | AwaitSignal => None
  | Stopping =>
      Some {| lock := lock st; cron := false; main := Draining;
              pool := pool st; exited := exited st |}
  | Draining =>
      match Chan.recv (lock st) with
      | Some (_, lock') =>
          Some {| lock := lock'; cron := cron st; main := Returned None;
                  pool := pool st; exited := exited st |}
      | None => None
      end
  | Returned _ =>
      Some {| lock := lock st; cron := cron st; main := main st;
              pool := pool st; exited := Some 1 |}
  end.

(** One step of the process: the scheduler fires a tick while it runs, a
    request arrives when the update API is registered, a goroutine of the
    pool moves, the signal is delivered, or the main goroutine moves.
    Nothing moves after the exit. Requests are let in at any time, also
    before the server listens; that only adds states. *)
Definition step (g : Globals) (c : FlagSet) (w : World) (filter : Filter)
    (st : State) (a : Action) : option State :=
  match exited st with
  | Some _ => None
  | None =>
      match a with
      | ActFire =>
          if cron st then Some (set_pool st (lock st) (pool st ++ [spawn Tick])%list)
          else None
      | ActRequest images =>
          if flag_http_api_update c
          then Some (set_pool st (lock st) (pool st ++ [spawn (Request images)])%list)
          else None
      | ActGo i u nextRuns =>
          match pool st !! i with
          | Some gr =>
              match gstep g filter (lock st) gr u nextRuns with
              | Some (lock', gr') => Some (set_pool st lock' (<[i := gr']> (pool st)))
              | None => None
              end
          | None => None
          end
      | ActSignal =>
          match main st with
          | AwaitSignal => Some (set_main st Stopping)
          | _ => None
          end
      | ActMain => main_step g c w st
      end
  end.

Fixpoint exec (g : Globals) (c : FlagSet) (w : World) (filter : Filter)
    (st : State) (acts : list Action) : option State :=
  match acts with
  | [] => Some st
  | a :: rest =>
      match step g c w filter st a with
      | Some st' => exec g c w filter st' rest
      | None => None
      end
  end.

(** The states the process can be in, from the lock [Run] creates. *)
Definition reachable (g : Globals) (c : FlagSet) (w : World) (filter : Filter)
    (st : State) : Prop :=
  exists l acts, newUpdateLock = Some l /\ exec g c w filter (initial l) acts = Some st.

(** A goroutine is in a session from the receipt of the token to the
    deferred send. *)
Definition in_session (p : PC) : bool :=
  match p with
  | Holding _ | Updating _ | Leaving _ _ => true
  | AtSelect | Finished _ => false
  end.

Definition weight (p : PC) : nat := if in_session p then 1 else 0.

(** The number of goroutines in a session. *)
Fixpoint sessions (p : list Goroutine) : nat :=
  match p with
  | [] => 0
  | gr :: rest => (weight (pc gr) + sessions rest)%nat
  end.

(** The metrics registered in a trace, in order. *)
Fixpoint scans (t : list Event) : list (option Metric) :=
  match t with
  | [] => []
  | EvRegisterScan m :: rest => m :: scans rest
  | _ :: rest => scans rest
  end.

(** The parameters [actions.Update] was called with in a trace. *)
Fixpoint updates (t : list Event) : list UpdateParams :=
  match t with
  | [] => []
  | EvUpdate p :: rest => p :: updates rest
  | _ :: rest => updates rest
  end.

(** What the notifier sees of a trace: the brackets opened and closed. *)
Inductive Note :=
| NoteStart
| NoteSend (r : Report).

Fixpoint notes (t : list Event) : list Note :=
  match t with
  | [] => []
  | EvStartNotification :: rest => NoteStart :: notes rest
  | EvSendNotification r :: rest => NoteSend r :: notes rest
  | _ :: rest => notes rest
  end.

(** The actions that start a sanity check, a session, the scheduler or the
    HTTP API. *)
Definition starts_work (e : Event) : bool :=
  match e with
  | EvCheckForSanity _ _ | EvCheckForMultipleWatchtowerInstances _ _
  | EvUpdate _ | EvCronNew | EvCronAddFunc _ | EvCronStart
  | EvAPINew _ | EvAPIRegisterUpdate | EvAPIRegisterMetrics | EvAPIStart _ => true
  | _ => false
  end.

Definition is_fatal_entry (e : Event) : bool :=
  match e with
  | EvLog StandardLogger FatalLevel _ | EvLogf StandardLogger FatalLevel _ _ => true
  | _ => false
  end.

(** A trace that ends in a fatal log entry followed by exit status 1. *)
Definition ends_fatally (t : list Event) : bool :=
  match rev t with
  | EvExit 1 :: e :: _ => is_fatal_entry e
  | _ => false
  end.

Definition is_cron_start (e : Event) : bool :=
  match e with EvCronStart => true | _ => false end.

(** *** Invariants of the process *)

(** The token taken by the main goroutine when it drains the lock. *)
Definition drained (m : MainPC) : nat :=
  match m with
  | Returned None => 1
  | _ => 0
  end.

(** One token in all: in the slot, with a goroutine in a session, or taken
    by the main goroutine at shutdown. *)
Definition one_token (st : State) : Prop :=
  Chan.cap (lock st) = 1%nat /\
  (length (Chan.buf (lock st)) + sessions (pool st) + drained (main st) = 1)%nat.

(** The scheduler runs exactly while the main goroutine waits for the
    signal or is about to stop it. *)
Definition cron_in_step (st : State) : Prop :=
  cron st = match main st with
            | AwaitSignal | Stopping => true
            | _ => false
            end.

(** What a goroutine has done so far, by program point. *)
Definition trace_ok (g : Globals) (filter : Filter) (gr : Goroutine) : Prop :=
  let begun := fst (sessionBegin g (filterOf filter (origin gr))) in
  match pc gr with
  | AtSelect | Holding _ => trace gr = []
  | Updating _ => trace gr = begun
  | Leaving _ (Some m) | Finished (Completed m) =>
      exists u nextRuns es,
        afterUpdate (origin gr) u nextRuns = (es, Continue m) /\
        trace gr = (begun ++ es)%list
  | Leaving _ None | Finished Crashed =>
      exists u nextRuns es o,
        afterUpdate (origin gr) u nextRuns = (es, Stop o) /\
        trace gr = (begun ++ es)%list
  | Finished Skipped =>
      exists nextRuns, trace gr = fst (skipped (origin gr) nextRuns)
  end.

Definition is_request (o : Origin) : bool :=
  match o with Request _ => true | Tick => false end.

(** The process exits from the end of [Run] only, with status 1. *)
Definition exit_ok (st : State) : Prop :=
  match exited st with
  | Some code => code = 1 /\ exists r, main st = Returned r
  | None => True
  end.

Definition invariant (g : Globals) (c : FlagSet) (filter : Filter) (st : State) : Prop :=
  one_token st /\
  cron_in_step st /\
  exit_ok st /\
  Forall (trace_ok g filter) (pool st) /\
  Forall (fun gr => is_request (origin gr) = true -> flag_http_api_update c = true) (pool st).

End Program.
End Watchtower.

(** ** A concrete setting for the examples *)

Module Demo.
Import GoTime Watchtower.
Local Open Scope string_scope.
Local Open Scope Z_scope.

(** Filters as the list of names they let through, reports as the three
    counts. *)
#[export] Instance collaborators : Collaborators := {|
  Filter := list string;
  Report := Z * Z * Z;
  nilReport := (0, 0, 0);
  BuildFilter := fun names _ _ _ => (names, "Checking all containers");
  FilterByImage := fun images base => (images ++ base)%list;
  NewMetric := fun '(scanned, updated, failed) =>
    {| Scanned := scanned; Updated := updated; Failed := failed |}
|}.

Definition report (scanned updated failed : Z) : Report :=
  (scanned, updated, failed).

Definition flags (schedule : string) (timeout : Duration)
    (monitorOnly rollingRestart runOnce apiUpdate healthCheck : bool) : FlagSet :=
  {| flag_schedule := schedule;
     flag_cleanup := false;
     flag_no_restart := false;
     flag_monitor_only := monitorOnly;
     flag_timeout := timeout;
     flag_label_enable := false;
     flag_disable_containers := [];
     flag_enable_lifecycle_hooks := false;
     flag_rolling_restart := rollingRestart;
     flag_scope := "";
     flag_label_take_precedence := false;
     flag_no_pull := false;
     flag_include_stopped := false;
     flag_include_restarting := false;
     flag_revive_stopped := false;
     flag_remove_volumes := false;
     flag_warn_on_head_failure := "auto";
     flag_disable_memory_swappiness := false;
     flag_run_once := runOnce;
     flag_http_api_update := apiUpdate;
     flag_http_api_metrics := false;
     flag_http_api_periodic_polls := apiUpdate;
     flag_http_api_token := "token";
     flag_health_check := healthCheck;
     flag_no_startup_message := false |}.

Definition daily : string := "@every 86400s".

(** A host where every call succeeds; [pid] is the process id, [addFunc]
    the cron library's answer to the schedule and [update] what
    [actions.Update] does. *)
Definition world (pid : Z) (addFunc : string -> option error)
    (update : UpdateOutcome) : World :=
  {| Version := "v0.0.0";
     Getpid := pid;
     SetupLogging := None;
     EnvConfig := None;
     CheckForSanity := None;
     CheckForMultipleWatchtowerInstances := None;
     APIStart := fun _ => Some None;
     GetNames := [];
     TraceLevelEnabled := false;
     AddFunc := addFunc;
     FirstRun := {| IsZero := false;
                    TimeFormat := "2026-01-01 00:00:00 +0000 UTC";
                    Until := 24 * Hour |};
     Update := update;
     Interrupt := true;
     LockFreed := true |}.

(** The cron library's parser refusing the empty schedule and accepting
    the rest. *)
Definition rejectEmpty (spec : string) : option error :=
  if String.eqb spec "" then Some (errorString "Empty spec string") else None.

Definition acceptAll (spec : string) : option error := None.

Definition globals (f : FlagSet) : Globals :=
  {| scheduleSpec := flag_schedule f;
     cleanup := flag_cleanup f;
     noRestart := flag_no_restart f;
     noPull := flag_no_pull f;
     monitorOnly := flag_monitor_only f;
     enableLabel := flag_label_enable f;
     disableContainers := flag_disable_containers f;
     timeout := flag_timeout f;
     lifecycleHooks := flag_enable_lifecycle_hooks f;
     rollingRestart := flag_rolling_restart f;
     scope := flag_scope f;
     labelPrecedence := flag_label_take_precedence f |}.

(** A process with the update API and periodic polls enabled, watching
    one container. *)
Definition apiFlags : FlagSet :=
  flags daily (10 * Second) false false false true false.

Definition host : World := world 7 acceptAll UpdatePanics.

Definition watched : Filter := ["nginx"].

Definition lock0 : Chan.t := {| Chan.cap := 1; Chan.buf := [true] |}.

Definition fine : UpdateOutcome := UpdateReturns (report 3 1 0) None.

(** The scheduler starts and fires twice; the first tick takes the token
    and enters its session, the second finds the slot empty. *)
Definition overlappingTicks : list Action :=
  [ActMain; ActFire; ActFire;
   ActGo 0 fine []; ActGo 0 fine [];
   ActGo 1 fine ["2026-01-02 00:00:00 +0000 UTC"]].



(** A request for one image, served to the end. *)
Definition servedRequest : list Action :=
  [ActRequest ["nginx:latest"];
   ActGo 0 fine []; ActGo 0 fine []; ActGo 0 fine []; ActGo 0 fine []].

(** The state a run ends in, and its first goroutine. *)
Definition after (acts : list Action) : State :=
  match exec (globals apiFlags) apiFlags host watched (initial lock0) acts with
  | Some st => st
  | None => initial lock0
  end.

Definition first (st : State) : Goroutine :=
  match pool st with
  | gr :: _ => gr
  | [] => spawn Tick
  end.

End Demo.

(** ** Views on durations, traces and goroutines *)

Module FormatViews.
Import GoTime GoStrings Format.
Local Open Scope string_scope.
Local Open Scope Z_scope.

(** The text of each component, when the component is shown at all. *)
Definition hoursPart (hours : Z) : option string :=
  if hours =? 1 then Some "1 hour"
  else if negb (hours =? 0) then Some (FormatInt hours ++ " hours")
  else None.

Definition minutesPart (minutes : Z) : option string :=
  if minutes =? 1 then Some "1 minute"
  else if negb (minutes =? 0) then Some (FormatInt minutes ++ " minutes")
  else None.

Definition secondsPart (hours minutes seconds : Z) : option string :=
  if seconds =? 1 then Some "1 second"
  else if negb (seconds =? 0) || ((hours =? 0) && (minutes =? 0))
       then Some (FormatInt seconds ++ " seconds")
  else None.

Fixpoint shown (parts : list (option string)) : list string :=
  match parts with
  | [] => []
  | Some p :: rest => p :: shown rest
  | None :: rest => shown rest
  end.

(** A whole number of seconds split by integer division, as a clock
    would. *)
Definition clock (n : Z) : Z * Z * Z :=
  (Z.quot n 3600, Z.rem (Z.quot n 60) 60, Z.rem n 60).

Definition components (d : Duration) : Z * Z * Z :=
  (hoursOf d, minutesOf d, secondsOf d).

Definition clock_agrees (k : nat) : bool :=
  let n := Z.of_nat k in
  match components (n * Second), clock n, components (- n * Second), clock (- n) with
  | (h, m, s), (h', m', s'), (a, b, c), (a', b', c') =>
      (h =? h') && (m =? m') && (s =? s') && (a =? a') && (b =? b') && (c =? c')
  end.

End FormatViews.

Module RootViews.
Import GoTime GoStrings Format Watchtower.
Local Open Scope string_scope.
Local Open Scope Z_scope.

Section TraceViews.
Context `{Collaborators}.

(** How often the notifier is closed in a trace. *)
Fixpoint closes (t : list Event) : nat :=
  match t with
  | [] => 0
  | EvNotifierClose :: rest => S (closes rest)
  | _ :: rest => closes rest
  end.

(** The error entries of a trace, in order. *)
Fixpoint errors (t : list Event) : list (list string) :=
  match t with
  | [] => []
  | EvLog StandardLogger ErrorLevel args :: rest => args :: errors rest
  | _ :: rest => errors rest
  end.

(** The warnings of a trace, in order. *)
Fixpoint warnings (t : list Event) : list (list string) :=
  match t with
  | [] => []
  | EvLog _ WarnLevel args :: rest => args :: warnings rest
  | _ :: rest => warnings rest
  end.

(** The first entry of a startup message: the name and the version. *)
Definition is_banner (e : Event) : bool :=
  match e with
  | EvLog _ InfoLevel [name; _] => String.eqb name "Watchtower "
  | _ => false
  end.

Fixpoint banners (t : list Event) : nat :=
  match t with
  | [] => 0
  | e :: rest => ((if is_banner e then 1 else 0) + banners rest)%nat
  end.

(** The calls on the cron scheduler. *)
Definition on_cron (e : Event) : bool :=
  match e with
  | EvCronNew | EvCronAddFunc _ | EvCronStart | EvCronStop => true
  | _ => false
  end.

(** What only the daemon does: the check for other instances, the HTTP
    API, the scheduler. *)
Definition daemon_only (e : Event) : bool :=
  match e with
  | EvCheckForMultipleWatchtowerInstances _ _
  | EvAPINew _ | EvAPIRegisterUpdate | EvAPIRegisterMetrics | EvAPIStart _
  | EvCronNew | EvCronAddFunc _ | EvCronStart | EvCronStop | EvSignalNotify => true
  | _ => false
  end.

Definition is_info_on (l : Logger) (e : Event) : bool :=
  match e, l with
  | EvLog StandardLogger InfoLevel _, StandardLogger => true
  | EvLog LocalLog InfoLevel _, LocalLog => true
  | _, _ => false
  end.

Definition traceWarning : string :=
  "Trace level enabled: log will include sensitive information as credentials and tokens".

(** The logger the startup message is written to. *)
Definition startupLogger (c : FlagSet) : Logger :=
  if flag_no_startup_message c then LocalLog else StandardLogger.

(** The objects [PreRun] builds. *)
Definition builds (e : Event) : bool :=
  match e with
  | EvNewClient _ | EvNewNotifier | EvAddLogHook => true
  | _ => false
  end.

(** The globals and the client options as [PreRun] reads them off the
    flags. *)
Definition globalsOf (f : FlagSet) : Globals :=
  {| scheduleSpec := flag_schedule f;
     cleanup := flag_cleanup f;
     noRestart := flag_no_restart f;
     noPull := flag_no_pull f;
     monitorOnly := flag_monitor_only f;
     enableLabel := flag_label_enable f;
     disableContainers := flag_disable_containers f;
     timeout := flag_timeout f;
     lifecycleHooks := flag_enable_lifecycle_hooks f;
     rollingRestart := flag_rolling_restart f;
     scope := flag_scope f;
     labelPrecedence := flag_label_take_precedence f |}.

Definition clientOptionsOf (f : FlagSet) : ClientOptions :=
  {| IncludeStopped := flag_include_stopped f;
     ReviveStopped := flag_revive_stopped f;
     RemoveVolumes := flag_remove_volumes f;
     IncludeRestarting := flag_include_restarting f;
     DisableMemorySwappiness := flag_disable_memory_swappiness f;
     WarnOnHeadFailed := flag_warn_on_head_failure f |}.

(** The filter and its description as [Run] builds them. *)
Definition filterFor (g : Globals) (names : list string) : Filter :=
  fst (BuildFilter names (disableContainers g) (enableLabel g) (scope g)).

Definition filterDescFor (g : Globals) (names : list string) : string :=
  snd (BuildFilter names (disableContainers g) (enableLabel g) (scope g)).

(** Whether [Run] starts the HTTP API in the blocking way. *)
Definition apiBlocks (c : FlagSet) : bool :=
  flag_http_api_update c && negb (flag_http_api_periodic_polls c).

(** [Run] gets past the health check, the flag check and the sanity
    check. *)
Definition passes_checks (g : Globals) (c : FlagSet) (w : World) : Prop :=
  flag_health_check c = false /\
  rollingRestart g && monitorOnly g = false /\
  CheckForSanity w = None.

(** The trace of [Run] from the creation of the HTTP API on, when it is not
    run-once and no other instance is found. *)
Definition daemonTrace (g : Globals) (c : FlagSet) (names : list string)
    (w : World) : list Event :=
  ([EvAPINew (flag_http_api_token c)]
   ++ (if flag_http_api_update c
       then EvAPIRegisterUpdate
            :: (if flag_http_api_periodic_polls c then []
                else fst (writeStartupMessage c w zeroTime (filterDescFor g names)))
       else [])
   ++ (if flag_http_api_metrics c then [EvAPIRegisterMetrics] else [])
   ++ [EvAPIStart (apiBlocks c)]
   ++ match APIStart w (apiBlocks c) with
      | None => []
      | Some started =>
          match started with
          | Some err =>
              if is_ErrServerClosed err then []
              else [EvLog StandardLogger ErrorLevel ["failed to start API"; Error err]]
          | None => []
          end
          ++ [EvCronNew; EvCronAddFunc (scheduleSpec g)]
          ++ match AddFunc w (scheduleSpec g) with
             | Some err => [EvLog StandardLogger ErrorLevel [Error err]; EvExit 1]
             | None =>
                 fst (writeStartupMessage c w (FirstRun w) (filterDescFor g names))
                 ++ [EvCronStart; EvSignalNotify; EvSignalNotify]
                 ++ (if Interrupt w
                     then [EvCronStop; EvLog StandardLogger InfoLevel [waitingMessage]]
                          ++ (if LockFreed w then [EvExit 1] else [])
                     else [])
             end
      end)%list.

End TraceViews.
End RootViews.

Module LockViews.
Import GoTime GoStrings Format Watchtower.
Local Open Scope string_scope.
Local Open Scope Z_scope.

Section GoroutineViews.
Context `{Collaborators}.


(** The steps that let goroutine [i] run to its end, then the main
    goroutine move once. *)
Definition finish_then_main (i : nat) (u : UpdateOutcome)
    (nextRuns : list string) (remaining : nat) : list Action :=
  (repeat (ActGo i u nextRuns) remaining ++ [ActMain])%list.

(** The steps a goroutine has left in its session. *)
Definition steps_left (p : PC) : nat :=
  match p with
  | Holding _ => 3
  | Updating _ => 2
  | Leaving _ _ => 1
  | AtSelect | Finished _ => 0
  end.

End GoroutineViews.
End LockViews.

(** ** More settings for the examples *)

Module Samples.
Import GoTime Watchtower Demo.
Local Open Scope string_scope.
Local Open Scope Z_scope.

(** A run-once command. *)
Definition onceFlags : FlagSet :=
  flags daily (10 * Second) false false true false false.

(** The update API enabled, periodic polls not: the API is started in the
    blocking way. *)
Definition blockingFlags : FlagSet :=
  {| flag_schedule := "";
     flag_cleanup := false;
     flag_no_restart := false;
     flag_monitor_only := false;
     flag_timeout := 10 * Second;
     flag_label_enable := false;
     flag_disable_containers := [];
     flag_enable_lifecycle_hooks := false;
     flag_rolling_restart := false;
     flag_scope := "";
     flag_label_take_precedence := false;
     flag_no_pull := false;
     flag_include_stopped := false;
     flag_include_restarting := false;
     flag_revive_stopped := false;
     flag_remove_volumes := false;
     flag_warn_on_head_failure := "auto";
     flag_disable_memory_swappiness := false;
     flag_run_once := false;
     flag_http_api_update := true;
     flag_http_api_metrics := false;
     flag_http_api_periodic_polls := false;
     flag_http_api_token := "token";
     flag_health_check := false;
     flag_no_startup_message := false |}.

(** Monitor-only together with no-pull. *)
Definition watchOnlyFlags : FlagSet :=
  {| flag_schedule := daily;
     flag_cleanup := false;
     flag_no_restart := false;
     flag_monitor_only := true;
     flag_timeout := 10 * Second;
     flag_label_enable := false;
     flag_disable_containers := [];
     flag_enable_lifecycle_hooks := false;
     flag_rolling_restart := false;
     flag_scope := "";
     flag_label_take_precedence := false;
     flag_no_pull := true;
     flag_include_stopped := false;
     flag_include_restarting := false;
     flag_revive_stopped := false;
     flag_remove_volumes := false;
     flag_warn_on_head_failure := "auto";
     flag_disable_memory_swappiness := false;
     flag_run_once := false;
     flag_http_api_update := false;
     flag_http_api_metrics := false;
     flag_http_api_periodic_polls := false;
     flag_http_api_token := "";
     flag_health_check := false;
     flag_no_startup_message := false |}.

(** A host on which the HTTP API fails to start and the cron library
    refuses the empty schedule. *)
Definition portInUse : error :=
  errorString "listen tcp :8080: bind: address already in use".

Definition busyHost : World :=
  {| Version := "v0.0.0";
     Getpid := 7;
     SetupLogging := None;
     EnvConfig := None;
     CheckForSanity := None;
     CheckForMultipleWatchtowerInstances := None;
     APIStart := fun _ => Some (Some portInUse);
     GetNames := ["email"; "slack"];
     TraceLevelEnabled := true;
     AddFunc := rejectEmpty;
     FirstRun := zeroTime;
     Update := fine;
     Interrupt := false;
     LockFreed := false |}.

(** A host whose cron library refuses the empty schedule, and a request
    served there before and while the main goroutine gives up. *)
Definition strictHost : World := world 7 rejectEmpty UpdatePanics.

Definition requestThenGiveUp : list Action :=
  [ActRequest ["nginx:latest"]; ActGo 0 fine []; ActMain; ActGo 0 fine []].

Definition afterOn (f : FlagSet) (w : World) (acts : list Action) : State :=
  match exec (globals f) f w watched (initial lock0) acts with
  | Some st => st
  | None => initial lock0
  end.

(** The signal arrives during a session and the scheduler is stopped: the
    main goroutine waits on the lock. *)
Definition waitingForSession : list Action :=
  [ActMain; ActFire; ActGo 0 fine []; ActGo 0 fine []; ActSignal; ActMain].

End Samples.

(** * Properties *)

(** ** [formatDuration] *)

Module FormatFacts.
Import GoTime GoStrings Format.
Local Open Scope string_scope.
Local Open Scope Z_scope.
















End FormatFacts.

(** ** The command, one goroutine at a time *)

Module RootFacts.
Import GoTime GoStrings Format Watchtower.
Local Open Scope string_scope.
Local Open Scope Z_scope.

Section Sequential.
Context `{Collaborators}.

Lemma bind_continue {A B : Type} (m : Proc A) (k : A -> Proc B) t a :
  m = (t, Continue a) -> bind m k = ((t ++ fst (k a))%list, snd (k a)).
Proof. intros ->. unfold bind. now destruct (k a). Qed.



(** *** [PreRun] *)

(** [PreRun] either stops the process with a fatal entry and status 1, or
    hands on the globals read from the flags. *)
Lemma PreRun_cases (f : FlagSet) (w : World) :
  (exists t, PreRun f w = (t, Stop (Exited 1)) /\
             ends_fatally t = true /\ existsb starts_work t = false) \/
  (exists t g, PreRun f w = (t, Continue g) /\
               existsb starts_work t = false /\ ends_fatally t = false /\
               SetupLogging w = None /\ EnvConfig w = None /\
               0 <= flag_timeout f /\
               scheduleSpec g = flag_schedule f /\
               timeout g = flag_timeout f /\
               rollingRestart g = flag_rolling_restart f /\
               monitorOnly g = flag_monitor_only f).
Proof.
  unfold PreRun, ReadFlags.
  destruct (SetupLogging w) as [e|]; [left; eexists; cbn; eauto|].
  destruct (Z.ltb_spec (flag_timeout f) 0) as [Hneg|Hpos]; [left; eexists; cbn; eauto|].
  destruct (EnvConfig w) as [e|];
    destruct (String.eqb (flag_scope f) ""); cbn;
    try (left; eexists; cbn; eauto; fail).
  all: right; destruct (flag_monitor_only f && flag_no_pull f);
    do 2 eexists; cbn; repeat split; auto.
Qed.

(** *** [runUpdatesWithNotifications] *)

Lemma session_trace_returns (g : Globals) (filter : Filter) (result : Report)
    (err : option error) :
  runUpdatesWithNotifications g filter (UpdateReturns result err)
  = ((EvStartNotification :: EvUpdate (sessionParams g filter)
        :: match err with
           | Some e => [EvLog StandardLogger ErrorLevel [Error e]]
           | None => []
           end
        ++ [EvSendNotification result;
            EvLogFields LocalLog InfoLevel
              [("Scanned", Scanned (NewMetric result));
               ("Updated", Updated (NewMetric result));
               ("Failed", Failed (NewMetric result))] "Session done"])%list,
     Continue (NewMetric result)).
Proof. destruct err; reflexivity. Qed.

Lemma session_trace_panics (g : Globals) (filter : Filter) :
  runUpdatesWithNotifications g filter UpdatePanics
  = ([EvStartNotification; EvUpdate (sessionParams g filter)], Stop Panicked).
Proof. reflexivity. Qed.

(** Every session calls [actions.Update] once, with the globals copied
    into the parameters. *)
Lemma session_updates (g : Globals) (filter : Filter) (u : UpdateOutcome) :
  updates (fst (runUpdatesWithNotifications g filter u)) = [sessionParams g filter].
Proof. destruct u as [result [e|]|]; reflexivity. Qed.

(** C10: the timeout check of [PreRun] is fatal for negative values only.
    With logging set up, a negative timeout ends the process with the
    message asking for a positive value and status 1; a timeout of zero or
    more passes the check, and when the environment is configured [PreRun]
    goes on with the timeout unchanged in the globals, from where every
    session copies it into the parameters of [actions.Update]. The message
    asks for a positive value although zero is accepted. *)
Theorem timeout_rejected_only_when_negative (f : FlagSet) (w : World) :
  SetupLogging w = None ->
  (flag_timeout f < 0 ->
   PreRun f w
   = ([EvLog StandardLogger FatalLevel
         ["Please specify a positive value for timeout value."];
       EvExit 1], Stop (Exited 1))) /\
  (0 <= flag_timeout f -> EnvConfig w = None ->
   exists t g,
     PreRun f w = (t, Continue g) /\
     ends_fatally t = false /\
     timeout g = flag_timeout f /\
     forall filter u,
       map up_Timeout (updates (fst (runUpdatesWithNotifications g filter u)))
       = [flag_timeout f]).
Proof.
  intros Hlog. split.
  - intros Hneg. unfold PreRun, ReadFlags. rewrite Hlog.
    destruct (Z.ltb_spec (flag_timeout f) 0); [reflexivity | lia].
  - intros Hpos Henv.
    destruct (PreRun_cases f w) as [(t & E & _)|(t & g & E & _ & Hf & _ & _ & _ & _ & Ht & _)].
    + exfalso. revert E. unfold PreRun, ReadFlags. rewrite Hlog, Henv.
      destruct (Z.ltb_spec (flag_timeout f) 0); [lia|].
      destruct (String.eqb (flag_scope f) "");
        destruct (flag_monitor_only f && flag_no_pull f); cbn; discriminate.
    + exists t, g. repeat split; auto.
      intros filter u. rewrite session_updates. cbn. now rewrite Ht.
Qed.

(** C8: a session in which [actions.Update] returns, with or without an
    error, opens the notifier's bracket once before the call and closes it
    once after it, with the report of the update. Nothing is deferred or
    recovered in the session: when [actions.Update] panics the bracket
    stays open, [StartNotification] without [SendNotification]. *)
Theorem session_bracket_closed_when_update_returns (g : Globals)
    (filter : Filter) (result : Report) (err : option error) :
  notes (fst (runUpdatesWithNotifications g filter (UpdateReturns result err)))
  = [NoteStart; NoteSend result] /\
  (exists mid rest,
     fst (runUpdatesWithNotifications g filter (UpdateReturns result err))
     = (EvStartNotification :: EvUpdate (sessionParams g filter) :: mid
          ++ EvSendNotification result :: rest)%list /\
     notes mid = [] /\ updates mid = [] /\ notes rest = [] /\ updates rest = []) /\
  notes (fst (runUpdatesWithNotifications g filter UpdatePanics)) = [NoteStart] /\
  snd (runUpdatesWithNotifications g filter UpdatePanics) = Stop Panicked.
Proof.
  rewrite session_trace_returns, session_trace_panics.
  split; [destruct err; reflexivity|].
  split; [|split; reflexivity].
  eexists _, _. split; [reflexivity|]. destruct err; repeat split.
Qed.

(** *** [Run] *)

Lemma snd_bind {A B : Type} (m : Proc A) (k : A -> Proc B) :
  snd (bind m k)
  = match snd m with
    | Continue a => snd (k a)
    | Stop o => Stop o
    end.
Proof. destruct m as [t [a|o]]; cbn; [now destruct (k a) | reflexivity]. Qed.

(** The startup message is written and control goes on; it starts nothing. *)
Lemma writeStartupMessage_continues (c : FlagSet) (w : World) (sched : Time)
    (filtering : string) :
  snd (writeStartupMessage c w sched filtering) = Continue tt /\
  existsb starts_work (fst (writeStartupMessage c w sched filtering)) = false /\
  existsb is_cron_start (fst (writeStartupMessage c w sched filtering)) = false.
Proof.
  unfold writeStartupMessage.
  destruct (flag_no_startup_message c), (0 <? length (GetNames w))%nat,
    (IsZero sched), (flag_run_once c), (flag_http_api_update c),
    (TraceLevelEnabled w); repeat split.
Qed.

(** How [Run] ends, by the flags and the answers of the environment. *)
Lemma Run_outcome (g : Globals) (c : FlagSet) (names : list string) (w : World) :
  snd (Run g c names w)
  = if flag_health_check c then
      if Getpid w =? 1 then Stop (Exited 1) else Stop (Exited 0)
    else if rollingRestart g && monitorOnly g then Stop (Exited 1)
    else match CheckForSanity w with
    | Some _ => Stop (Exited 1)
    | None =>
      if flag_run_once c then
        match Update w with
        | UpdateReturns _ _ => Stop (Exited 0)
        | UpdatePanics => Stop Panicked
        end
      else match CheckForMultipleWatchtowerInstances w with
      | Some _ => Stop (Exited 1)
      | None =>
        match APIStart w (flag_http_api_update c
                          && negb (flag_http_api_periodic_polls c)) with
        | None => Stop Blocked
        | Some _ =>
          match AddFunc w (scheduleSpec g) with
          | Some _ => Stop (Exited 1)
          | None => if Interrupt w && LockFreed w then Stop (Exited 1) else Stop Blocked
          end
        end
      end
    end.
Proof.
  unfold Run. destruct (BuildFilter _ _ _ _) as [filter filterDesc].
  destruct (flag_health_check c); [destruct (Getpid w =? 1); reflexivity|].
  destruct (rollingRestart g && monitorOnly g); [reflexivity|].
  destruct (CheckForSanity w); [reflexivity|].
  destruct (flag_run_once c).
  - repeat (rewrite snd_bind; cbn [snd ret emit when]).
    rewrite (proj1 (writeStartupMessage_continues _ _ _ _)).
    destruct (Update w) as [r [e|]|]; reflexivity.
  - repeat (rewrite snd_bind; cbn [snd ret emit when]).
    destruct (CheckForMultipleWatchtowerInstances w); [reflexivity|].
    repeat (rewrite snd_bind; cbn [snd ret emit when]).
    assert (Hreg : snd (when (flag_http_api_update c)
                   (bind (emit EvAPIRegisterUpdate) (fun _ =>
                      when (negb (flag_http_api_periodic_polls c))
                        (writeStartupMessage c w zeroTime filterDesc))))
                   = Continue tt).
    { destruct (flag_http_api_update c); [|reflexivity].
      cbn [when]. rewrite snd_bind. cbn [snd emit].
      destruct (flag_http_api_periodic_polls c); [reflexivity|].
      apply writeStartupMessage_continues. }
    rewrite Hreg.
    repeat (rewrite snd_bind; cbn [snd ret emit when]).
    replace (snd (when (flag_http_api_metrics c) (emit EvAPIRegisterMetrics)))
      with (@Continue unit tt) by (destruct (flag_http_api_metrics c); reflexivity).
    repeat (rewrite snd_bind; cbn [snd ret emit when]).
    destruct (APIStart w _) as [[[|msg]|]|]; [| | |reflexivity].
    all: cbn [snd ret andb is_ErrServerClosed negb when logError emit].
    all: change (snd awaitDockerClient) with (@Continue unit tt); cbv iota beta.
    all: unfold runUpgradesOnSchedule.
    all: repeat (rewrite snd_bind; cbn [snd ret emit when]).
    all: destruct (AddFunc w (scheduleSpec g)); [reflexivity|].
    all: repeat (rewrite snd_bind; cbn [snd ret emit when]).
    all: rewrite (proj1 (writeStartupMessage_continues _ _ _ _)).
    all: destruct (Interrupt w); [|reflexivity].
    all: cbn [snd ret andb].
    all: repeat (rewrite snd_bind; cbn [snd ret emit when]).
    all: destruct (LockFreed w); reflexivity.
Qed.

(** Replace a startup message by its trace, a list that starts nothing. *)
Ltac name_startup_message c w sched desc t :=
  let Hs := fresh "Hsnd" in
  let Hw := fresh "Hwork" in
  let Hc := fresh "Hcron" in
  destruct (writeStartupMessage_continues c w sched desc) as (Hs & Hw & Hc);
  destruct (writeStartupMessage c w sched desc) as [t ?r];
  cbn [fst snd] in Hs, Hw, Hc; subst.

Lemma Run_health_check (g : Globals) (c : FlagSet) (names : list string) (w : World) :
  flag_health_check c = true ->
  Run g c names w
  = if Getpid w =? 1
    then ([EvSleep (1 * Second);
           EvLog StandardLogger FatalLevel [healthCheckMessage];
           EvExit 1], Stop (Exited 1))
    else ([EvExit 0], Stop (Exited 0)).
Proof.
  intros Hh. unfold Run. destruct (BuildFilter _ _ _ _) as [filter filterDesc].
  rewrite Hh. destruct (Getpid w =? 1); reflexivity.
Qed.

Lemma Run_rolling_monitor (g : Globals) (c : FlagSet) (names : list string)
    (w : World) :
  flag_health_check c = false ->
  rollingRestart g && monitorOnly g = true ->
  Run g c names w
  = ([EvLog StandardLogger FatalLevel [rollingMonitorMessage]; EvExit 1],
     Stop (Exited 1)).
Proof.
  intros Hh Hrm. unfold Run. destruct (BuildFilter _ _ _ _) as [filter filterDesc].
  rewrite Hh, Hrm. reflexivity.
Qed.

(** The trace of [Run] on the way to the scheduler: the scheduler is
    created and handed the schedule; it is started exactly when the cron
    library accepts the schedule. *)
Lemma Run_scheduler_trace (g : Globals) (c : FlagSet) (names : list string)
    (w : World) (started : option error) :
  flag_health_check c = false ->
  rollingRestart g && monitorOnly g = false ->
  CheckForSanity w = None ->
  flag_run_once c = false ->
  CheckForMultipleWatchtowerInstances w = None ->
  APIStart w (flag_http_api_update c && negb (flag_http_api_periodic_polls c))
  = Some started ->
  In (EvCronAddFunc (scheduleSpec g)) (fst (Run g c names w)) /\
  match AddFunc w (scheduleSpec g) with
  | Some err =>
      existsb is_cron_start (fst (Run g c names w)) = false /\
      In (EvLog StandardLogger ErrorLevel [Error err]) (fst (Run g c names w))
  | None => existsb is_cron_start (fst (Run g c names w)) = true
  end.
Proof.
  intros Hh Hrm Hs Ho Hm Ha.
  unfold Run, runUpgradesOnSchedule.
  destruct (BuildFilter _ _ _ _) as [filter filterDesc].
  rewrite Hh, Hrm, Hs, Ho, Hm, Ha.
  name_startup_message c w zeroTime filterDesc tz.
  name_startup_message c w (FirstRun w) filterDesc tf.
  destruct (flag_http_api_update c), (flag_http_api_periodic_polls c),
    (flag_http_api_metrics c), started as [[|msg]|],
    (AddFunc w (scheduleSpec g)) as [err|], (Interrupt w), (LockFreed w);
    cbn;
    repeat (rewrite ?in_app_iff, ?existsb_app; cbn);
    rewrite ?Hcron, ?Hcron0; cbn; auto 20.
Qed.


(** C6: the exit statuses of the command. A stop in [PreRun] is status 1.
    In [Run], the health check ends with 0, or as process 1 with a fatal
    entry and 1; the incompatible flags, a failed sanity check and a second
    instance end with 1; a run-once session that returns ends with 0; and
    once the scheduler is reached the only status is 1, whether
    [scheduler.AddFunc] fails or the loop returns after the signal. No
    other status occurs. *)
Theorem exit_statuses (f : FlagSet) (g : Globals) (names : list string)
    (w : World) :
  (forall t o, PreRun f w = (t, Stop o) -> o = Exited 1) /\
  (flag_health_check f = true ->
   snd (Run g f names w) = if Getpid w =? 1 then Stop (Exited 1) else Stop (Exited 0)) /\
  (flag_health_check f = true -> Getpid w = 1 ->
   ends_fatally (fst (Run g f names w)) = true) /\
  (flag_health_check f = false ->
   (rollingRestart g && monitorOnly g = true ->
    snd (Run g f names w) = Stop (Exited 1) /\
    ends_fatally (fst (Run g f names w)) = true) /\
   (rollingRestart g && monitorOnly g = false ->
    (forall err, CheckForSanity w = Some err ->
                 snd (Run g f names w) = Stop (Exited 1)) /\
    (CheckForSanity w = None ->
     (flag_run_once f = true ->
      forall result err, Update w = UpdateReturns result err ->
                         snd (Run g f names w) = Stop (Exited 0)) /\
     (flag_run_once f = false ->
      (forall err, CheckForMultipleWatchtowerInstances w = Some err ->
                   snd (Run g f names w) = Stop (Exited 1)) /\
      (CheckForMultipleWatchtowerInstances w = None ->
       snd (Run g f names w) = Stop (Exited 1) \/
       snd (Run g f names w) = Stop Blocked) /\
      (CheckForMultipleWatchtowerInstances w = None ->
       forall started,
         APIStart w (flag_http_api_update f
                     && negb (flag_http_api_periodic_polls f)) = Some started ->
         (forall err, AddFunc w (scheduleSpec g) = Some err ->
                      snd (Run g f names w) = Stop (Exited 1)) /\
         (AddFunc w (scheduleSpec g) = None ->
          Interrupt w = true -> LockFreed w = true ->
          snd (Run g f names w) = Stop (Exited 1))))))) /\
  (forall code, snd (Run g f names w) = Stop (Exited code) -> code = 0 \/ code = 1).
Proof.
  split.
  { intros t o E.
    destruct (PreRun_cases f w) as [(t' & E' & _)|(t' & g' & E' & _)];
      rewrite E' in E; congruence. }
  rewrite Run_outcome.
  split; [intros ->; reflexivity|].
  split.
  { intros Hh Hp. rewrite (Run_health_check g f names w Hh), Hp. reflexivity. }
  split.
  { intros Hh. rewrite Hh. split.
    - intros Hrm. rewrite Hrm. split; [reflexivity|].
      rewrite (Run_rolling_monitor g f names w Hh Hrm). reflexivity.
    - intros Hrm. rewrite Hrm. split; [intros err ->; reflexivity|].
      intros ->. split.
      + intros -> result err ->. reflexivity.
      + intros ->. split; [intros err ->; reflexivity|]. split.
        * intros ->.
          destruct (APIStart w _); [|auto].
          destruct (AddFunc w _); [auto|].
          destruct (Interrupt w && LockFreed w); auto.
        * intros -> started ->. split; [intros err ->; reflexivity|].
          intros -> -> ->. reflexivity. }
  intros code.
  destruct (flag_health_check f); [destruct (Getpid w =? 1)|];
    try (intros [= <-]; auto; fail).
  destruct (rollingRestart g && monitorOnly g); [intros [= <-]; auto|].
  destruct (CheckForSanity w); [intros [= <-]; auto|].
  destruct (flag_run_once f).
  - destruct (Update w); [intros [= <-]; auto|discriminate].
  - destruct (CheckForMultipleWatchtowerInstances w); [intros [= <-]; auto|].
    destruct (APIStart w _); [|discriminate].
    destruct (AddFunc w _); [intros [= <-]; auto|].
    destruct (Interrupt w && LockFreed w); [intros [= <-]; auto|discriminate].
Qed.

(** C7, as the code has it: an empty schedule gets no treatment of its
    own. When [Run] reaches the scheduler with the schedule empty and
    run-once unset, the empty string is handed to [scheduler.AddFunc]. If
    the cron library refuses it, the error is logged, the scheduler is never
    started and the process exits with status 1; if the library accepts it,
    the scheduler is started. *)
Theorem empty_schedule_goes_to_cron (g : Globals) (c : FlagSet)
    (names : list string) (w : World) (started : option error) :
  scheduleSpec g = "" ->
  flag_run_once c = false ->
  flag_health_check c = false ->
  rollingRestart g && monitorOnly g = false ->
  CheckForSanity w = None ->
  CheckForMultipleWatchtowerInstances w = None ->
  APIStart w (flag_http_api_update c && negb (flag_http_api_periodic_polls c))
  = Some started ->
  In (EvCronAddFunc "") (fst (Run g c names w)) /\
  match AddFunc w "" with
  | Some err =>
      snd (Run g c names w) = Stop (Exited 1) /\
      existsb is_cron_start (fst (Run g c names w)) = false /\
      In (EvLog StandardLogger ErrorLevel [Error err]) (fst (Run g c names w))
  | None => existsb is_cron_start (fst (Run g c names w)) = true
  end.
Proof.
  intros He Ho Hh Hrm Hs Hm Ha.
  pose proof (Run_scheduler_trace g c names w started Hh Hrm Hs Ho Hm Ha) as [Hin Hc].
  rewrite He in Hin, Hc. split; [exact Hin|].
  destruct (AddFunc w "") as [err|] eqn:Hadd; [|exact Hc].
  split; [|exact Hc].
  rewrite Run_outcome, Hh, Hrm, Hs, Ho, Hm, Ha, He, Hadd. reflexivity.
Qed.

End Sequential.

(** *** The theorems at concrete inputs *)

Import Demo.

(** The theorem at a timeout of exactly zero. *)
Lemma timeout_rejected_only_when_negative_witness :
  exists t g,
    PreRun (Demo.flags Demo.daily 0 false false false false false)
           (Demo.world 7 Demo.acceptAll UpdatePanics) = (t, Continue g) /\
    ends_fatally t = false /\
    timeout g = 0 /\
    forall filter u,
      map up_Timeout (updates (fst (runUpdatesWithNotifications g filter u))) = [0].
Proof.
  apply (proj2 (timeout_rejected_only_when_negative
                  (Demo.flags Demo.daily 0 false false false false false)
                  (Demo.world 7 Demo.acceptAll UpdatePanics) eq_refl));
    [cbn; lia | reflexivity].
Defined.



(** A run-once session that returns: status 0. *)
Lemma exit_statuses_witness :
  snd (Run (globals (flags daily (10 * Second) false false true false false))
           (flags daily (10 * Second) false false true false false) []
           (world 7 acceptAll (UpdateReturns (report 3 1 0) None)))
  = Stop (Exited 0).
Proof.
  destruct (@exit_statuses collaborators (flags daily (10 * Second) false false true false false)
              (globals (flags daily (10 * Second) false false true false false)) []
              (world 7 acceptAll (UpdateReturns (report 3 1 0) None)))
    as (_ & _ & _ & Hrun & _).
  destruct (Hrun eq_refl) as [_ Hplain].
  destruct (Hplain eq_refl) as [_ Hsane].
  destruct (Hsane eq_refl) as [Honce _].
  exact (Honce eq_refl _ _ eq_refl).
Defined.

(** The empty schedule on a host whose cron library refuses it. *)
Lemma empty_schedule_goes_to_cron_witness :
  In (EvCronAddFunc "")
     (fst (Run (globals (flags "" (10 * Second) false false false false false))
             (flags "" (10 * Second) false false false false false) []
             (world 7 rejectEmpty UpdatePanics))) /\
  snd (Run (globals (flags "" (10 * Second) false false false false false))
         (flags "" (10 * Second) false false false false false) []
         (world 7 rejectEmpty UpdatePanics)) = Stop (Exited 1) /\
  existsb is_cron_start
    (fst (Run (globals (flags "" (10 * Second) false false false false false))
            (flags "" (10 * Second) false false false false false) []
            (world 7 rejectEmpty UpdatePanics))) = false /\
  In (EvLog StandardLogger ErrorLevel ["Empty spec string"])
     (fst (Run (globals (flags "" (10 * Second) false false false false false))
             (flags "" (10 * Second) false false false false false) []
             (world 7 rejectEmpty UpdatePanics))).
Proof.
  apply (empty_schedule_goes_to_cron
           (globals (flags "" (10 * Second) false false false false false))
           (flags "" (10 * Second) false false false false false) []
           (world 7 rejectEmpty UpdatePanics) None); reflexivity.
Defined.

(** The empty schedule with run-once unset does not leave the process
    running without a scheduler: where the cron library refuses the empty
    string the process exits with status 1 after logging the error, and
    where it accepts it the scheduler is started. *)
Lemma empty_schedule_fails_or_schedules :
  flag_schedule (flags "" (10 * Second) false false false false false) = "" /\
  flag_run_once (flags "" (10 * Second) false false false false false) = false /\
  snd (Execute (flags "" (10 * Second) false false false false false) []
         (world 7 rejectEmpty UpdatePanics)) = Stop (Exited 1) /\
  existsb is_cron_start
    (fst (Execute (flags "" (10 * Second) false false false false false) []
            (world 7 rejectEmpty UpdatePanics))) = false /\
  existsb is_cron_start
    (fst (Execute (flags "" (10 * Second) false false false false false) []
            (world 7 acceptAll UpdatePanics))) = true.
Proof. repeat split. Qed.

(** A session whose [actions.Update] panics: the bracket is opened and
    never closed. *)
Lemma session_bracket_left_open_on_panic :
  runUpdatesWithNotifications
    (globals (flags daily (10 * Second) false false false false false))
    ["nginx"] UpdatePanics
  = ([EvStartNotification;
      EvUpdate (sessionParams
                  (globals (flags daily (10 * Second) false false false false false))
                  ["nginx"])],
     Stop Panicked) /\
  notes (fst (runUpdatesWithNotifications
                (globals (flags daily (10 * Second) false false false false false))
                ["nginx"] UpdatePanics))
  = [NoteStart].
Proof. split; reflexivity. Qed.

End RootFacts.

(** ** The update lock and the goroutines around it *)

Module LockFacts.
Import GoTime GoStrings Format Watchtower.
Local Open Scope string_scope.
Local Open Scope Z_scope.

Section Concurrent.
Context `{Collaborators}.
Variables (g : Globals) (c : FlagSet) (w : World) (filter : Filter).

(** The lock [Run] creates: capacity one, one token in it. *)
Lemma newUpdateLock_seeded :
  newUpdateLock = Some {| Chan.cap := 1; Chan.buf := [true] |}.
Proof. reflexivity. Qed.

Lemma sessions_app (p q : list Goroutine) :
  sessions (p ++ q) = (sessions p + sessions q)%nat.
Proof. induction p as [|gr p IH]; cbn; [reflexivity | rewrite IH; lia]. Qed.

Lemma sessions_insert (p : list Goroutine) (i : nat) (gr gr' : Goroutine) :
  p !! i = Some gr ->
  (sessions (<[i := gr']> p) + weight (pc gr) = sessions p + weight (pc gr'))%nat.
Proof.
  revert i. induction p as [|x p IH]; intros [|i] Hi; simpl in *; try discriminate.
  - injection Hi as ->. lia.
  - specialize (IH i Hi). lia.
Qed.

Lemma sessions_lookup (p : list Goroutine) (i : nat) (gr : Goroutine) :
  p !! i = Some gr -> (weight (pc gr) <= sessions p)%nat.
Proof.
  revert i. induction p as [|x p IH]; intros [|i] Hi; simpl in *; try discriminate.
  - injection Hi as ->. lia.
  - specialize (IH i Hi). lia.
Qed.

(** Two goroutines in a session weigh two. *)
Lemma sessions_two (p : list Goroutine) (i j : nat) (gi gj : Goroutine) :
  p !! i = Some gi -> p !! j = Some gj -> i <> j ->
  (weight (pc gi) + weight (pc gj) <= sessions p)%nat.
Proof.
  revert i j. induction p as [|x p IH]; intros [|i] [|j] Hi Hj Hne;
    simpl in *; try discriminate; try congruence.
  - injection Hi as ->. pose proof (sessions_lookup p j gj Hj). lia.
  - injection Hj as ->. pose proof (sessions_lookup p i gi Hi). lia.
  - assert (i <> j) by congruence. specialize (IH i j Hi Hj). lia.
Qed.

(** *** One step of a goroutine *)

(** A step keeps the goroutine's record of itself right and moves the
    token between the slot and the goroutine, never creating or losing it. *)
Lemma gstep_keeps (lk lk' : Chan.t) (gr gr' : Goroutine) (u : UpdateOutcome)
    (nextRuns : list string) :
  Chan.cap lk = 1%nat ->
  trace_ok g filter gr ->
  gstep g filter lk gr u nextRuns = Some (lk', gr') ->
  Chan.cap lk' = 1%nat /\
  origin gr' = origin gr /\
  trace_ok g filter gr' /\
  (length (Chan.buf lk') + weight (pc gr')
   = length (Chan.buf lk) + weight (pc gr))%nat.
Proof.
  intros Hcap Hok. unfold gstep, trace_ok in *.
  destruct gr as [o p t]. cbn [pc origin trace] in *.
  destruct p as [|v|v|v r|e].
  - unfold Chan.recv. destruct lk as [n b]. cbn [Chan.buf Chan.cap] in *.
    destruct b as [|v rest]; intros [= <- <-]; cbn; subst t;
      repeat split; eauto.
  - intros [= <- <-]. cbn. subst t. repeat split; auto.
  - destruct (afterUpdate o u nextRuns) as [es [m|out]] eqn:E;
      intros [= <- <-]; cbn; subst t; repeat split; eauto 10.
  - unfold Chan.send. destruct lk as [n b]. cbn [Chan.buf Chan.cap] in *.
    destruct (length b <? n)%nat eqn:Hlt; [|discriminate].
    intros [= <- <-]. cbn. rewrite app_nil_r, length_app. cbn.
    split; [exact Hcap|]. split; [reflexivity|]. split; [|lia].
    destruct r as [m|]; exact Hok.
  - discriminate.
Qed.

(** Stepping a tick to its end, alone with a lock of capacity one, does
    what the scheduled function does as a whole; likewise a request and the
    function given to [update.New]. *)
Lemma tick_steps_are_scheduledFunc (lk : Chan.t) (u : UpdateOutcome)
    (nextRuns : list string) :
  Chan.cap lk = 1%nat ->
  (length (Chan.buf lk) <= 1)%nat ->
  trace (snd (gsteps 4 g filter lk (spawn Tick) u nextRuns))
  = fst (scheduledFunc g filter lk u nextRuns) /\
  Some (fst (gsteps 4 g filter lk (spawn Tick) u nextRuns))
  = snd (scheduledFunc g filter lk u nextRuns) /\
  exists e, pc (snd (gsteps 4 g filter lk (spawn Tick) u nextRuns)) = Finished e.
Proof.
  destruct lk as [n b]. cbn [Chan.cap Chan.buf]. intros -> Hlen.
  destruct b as [|v [|v' b]]; [| |cbn in Hlen; lia];
    destruct u as [result [e|]|], nextRuns as [|next more]; cbn; eauto.
Qed.

Lemma request_steps_are_updateFunc (v : bool) (images : list string)
    (u : UpdateOutcome) (nextRuns : list string) :
  trace (snd (gsteps 4 g filter {| Chan.cap := 1; Chan.buf := [v] |}
                (spawn (Request images)) u nextRuns))
  = fst (updateFunc g filter images u) /\
  fst (gsteps 4 g filter {| Chan.cap := 1; Chan.buf := [v] |}
         (spawn (Request images)) u nextRuns)
  = {| Chan.cap := 1; Chan.buf := [v] |}.
Proof. destruct u as [result [e|]|]; cbn; auto. Qed.

(** *** The invariant: established, preserved, used *)

Lemma invariant_initial (l : Chan.t) :
  newUpdateLock = Some l -> invariant g c filter (initial l).
Proof.
  intros [= <-]. unfold invariant, one_token, cron_in_step, exit_ok. cbn.
  repeat split; constructor.
Qed.

Lemma invariant_step (st st' : State) (a : Action) :
  invariant g c filter st ->
  step g c w filter st a = Some st' ->
  invariant g c filter st'.
Proof.
  intros ((Hcap & Htok) & Hcron & Hexit & Htr & Hreq).
  unfold step. destruct (exited st) eqn:Hex; [discriminate|].
  assert (Hlive : forall m, exit_ok (set_main st m))
    by (intros m; unfold exit_ok; cbn; now rewrite Hex).
  destruct a as [|images|i u nextRuns| |].
  - destruct (cron st) eqn:Hc; [|discriminate]. intros [= <-].
    unfold invariant, one_token, cron_in_step, exit_ok. cbn.
    rewrite sessions_app, Hex. cbn.
    repeat split; auto; try lia; apply Forall_app; split; auto;
      repeat constructor; discriminate.
  - destruct (flag_http_api_update c) eqn:Hu; [|discriminate]. intros [= <-].
    unfold invariant, one_token, cron_in_step, exit_ok. cbn.
    rewrite sessions_app, Hex, Hu. cbn.
    repeat split; auto; try lia; apply Forall_app; split; auto;
      repeat constructor; auto.
  - destruct (pool st !! i) as [gr|] eqn:Hi; [|discriminate].
    destruct (gstep g filter (lock st) gr u nextRuns) as [[lk' gr']|] eqn:Hg;
      [|discriminate].
    intros [= <-].
    pose proof (proj1 (Forall_lookup _ _) Htr i gr Hi) as Hok.
    pose proof (proj1 (Forall_lookup _ _) Hreq i gr Hi) as Hrq.
    destruct (gstep_keeps _ _ _ _ _ _ Hcap Hok Hg) as (Hcap' & Ho & Hok' & Hw).
    pose proof (sessions_insert (pool st) i gr gr' Hi) as Hs.
    unfold invariant, one_token, cron_in_step, exit_ok. cbn.
    rewrite Hex.
    repeat split; auto; try lia; apply Forall_insert; auto.
    now rewrite Ho.
  - destruct (main st) eqn:Hm; try discriminate. intros [= <-].
    unfold invariant, one_token, cron_in_step in *. cbn.
    rewrite Hm in *. cbn in *. repeat split; auto.
  - unfold main_step. unfold one_token, cron_in_step in *.
    destruct (main st) as [| | | |r] eqn:Hm; try discriminate.
    + destruct (APIStart w _); [|discriminate].
      destruct (AddFunc w _); intros [= <-];
        unfold invariant, one_token, cron_in_step, exit_ok; cbn;
        rewrite Hex; cbn in *; repeat split; auto.
    + intros [= <-].
      unfold invariant, one_token, cron_in_step, exit_ok; cbn;
        rewrite Hex; cbn in *; repeat split; auto.
    + unfold Chan.recv. destruct (lock st) as [n b]. cbn in *.
      destruct b as [|v rest]; [discriminate|]. intros [= <-].
      unfold invariant, one_token, cron_in_step, exit_ok; cbn;
        rewrite Hex; cbn in *; repeat split; auto; lia.
    + intros [= <-].
      unfold invariant, one_token, cron_in_step, exit_ok; cbn.
      rewrite ?Hm. cbn in *. repeat split; eauto.
Qed.

Lemma invariant_exec (acts : list Action) (st st' : State) :
  invariant g c filter st ->
  exec g c w filter st acts = Some st' ->
  invariant g c filter st'.
Proof.
  revert st. induction acts as [|a acts IH]; intros st Hinv; cbn.
  - now intros [= <-].
  - destruct (step g c w filter st a) as [st1|] eqn:Hs; [|discriminate].
    apply IH. eapply invariant_step; eauto.
Qed.

Lemma invariant_reachable (st : State) :
  reachable g c w filter st -> invariant g c filter st.
Proof.
  intros (l & acts & Hl & Hrun).
  eapply invariant_exec; [apply invariant_initial; exact Hl | exact Hrun].
Qed.

(** *** What a goroutine's trace holds *)

(** A goroutine that got through its session ran
    [runUpdatesWithNotifications] on its filter and registered the metric
    this returned, once, right after. *)
Lemma afterUpdate_continues (o : Origin) (u : UpdateOutcome)
    (nextRuns : list string) (es : list Event) (m : Metric) :
  afterUpdate o u nextRuns = (es, Continue m) ->
  exists t rest,
    runUpdatesWithNotifications g (filterOf filter o) u = (t, Continue m) /\
    (fst (sessionBegin g (filterOf filter o)) ++ es
     = t ++ EvRegisterScan (Some m) :: rest)%list /\
    scans t = [] /\ scans rest = [] /\ updates rest = [] /\
    (is_request o = true -> rest = []).
Proof.
  destruct u as [result [e|]|]; [| |discriminate];
    destruct o as [|images], nextRuns as [|next more]; cbn;
    intros [= <- <-]; do 2 eexists;
    (split; [reflexivity|]); (split; [reflexivity|]); repeat split; discriminate.
Qed.

(** A goroutine left by a panic registered nothing. *)
Lemma afterUpdate_stops (o : Origin) (u : UpdateOutcome)
    (nextRuns : list string) (es : list Event) (out : Outcome) :
  afterUpdate o u nextRuns = (es, Stop out) ->
  u = UpdatePanics /\ es = [] /\ out = Panicked.
Proof.
  destruct u as [result [e|]|];
    destruct o as [|images], nextRuns as [|next more]; cbn;
    intros [= <- <-] || discriminate; auto.
Qed.

(** Two goroutines in a session are the same goroutine, and while one is
    in a session the slot is empty. *)
Lemma one_session (st : State) (i j : nat) (gi gj : Goroutine) :
  invariant g c filter st ->
  pool st !! i = Some gi -> pool st !! j = Some gj ->
  in_session (pc gi) = true -> in_session (pc gj) = true -> i = j.
Proof.
  intros ((_ & Htok) & _) Hi Hj Hsi Hsj.
  destruct (Nat.eq_dec i j) as [|Hne]; [assumption|exfalso].
  pose proof (sessions_two (pool st) i j gi gj Hi Hj Hne) as Htwo.
  unfold weight in Htwo. rewrite Hsi, Hsj in Htwo. lia.
Qed.

Lemma slot_empty_in_session (st : State) (i : nat) (gr : Goroutine) :
  invariant g c filter st ->
  pool st !! i = Some gr -> in_session (pc gr) = true ->
  Chan.buf (lock st) = [].
Proof.
  intros ((_ & Htok) & _) Hi Hs.
  pose proof (sessions_lookup (pool st) i gr Hi) as Hle.
  unfold weight in Hle. rewrite Hs in Hle.
  destruct (Chan.buf (lock st)); [reflexivity|cbn in Htok; lia].
Qed.

Lemma updates_app (t t' : list Event) :
  updates (t ++ t') = (updates t ++ updates t')%list.
Proof.
  induction t as [|e t IH]; cbn; [reflexivity|].
  destruct e; cbn; now rewrite ?IH.
Qed.

Lemma scans_app (t t' : list Event) :
  scans (t ++ t') = (scans t ++ scans t')%list.
Proof.
  induction t as [|e t IH]; cbn; [reflexivity|].
  destruct e; cbn; now rewrite ?IH.
Qed.

(** A goroutine calls [actions.Update] at most once, with the globals and
    its own filter. *)
Lemma trace_updates (gr : Goroutine) :
  trace_ok g filter gr ->
  updates (trace gr) = [] \/
  updates (trace gr) = [sessionParams g (filterOf filter (origin gr))].
Proof.
  unfold trace_ok.
  assert (Hdone : forall m,
            (exists u nextRuns es,
               afterUpdate (origin gr) u nextRuns = (es, Continue m) /\
               trace gr = (fst (sessionBegin g (filterOf filter (origin gr))) ++ es)%list) ->
            updates (trace gr) = [sessionParams g (filterOf filter (origin gr))]).
  { intros m (u & nextRuns & es & Ha & ->).
    destruct (afterUpdate_continues _ _ _ _ _ Ha) as (t & rest & Hrun & -> & _ & _ & Hur & _).
    rewrite updates_app. cbn. rewrite Hur, app_nil_r.
    pose proof (RootFacts.session_updates g (filterOf filter (origin gr)) u) as Hu.
    now rewrite Hrun in Hu. }
  assert (Hcrash :
            (exists u nextRuns es out,
               afterUpdate (origin gr) u nextRuns = (es, Stop out) /\
               trace gr = (fst (sessionBegin g (filterOf filter (origin gr))) ++ es)%list) ->
            updates (trace gr) = [sessionParams g (filterOf filter (origin gr))]).
  { intros (u & nextRuns & es & out & Ha & ->).
    destruct (afterUpdate_stops _ _ _ _ _ Ha) as (_ & -> & _). reflexivity. }
  destruct (pc gr) as [|v|v|v [m|]|[|m|]]; intros Hok.
  - left. now rewrite Hok.
  - left. now rewrite Hok.
  - right. now rewrite Hok.
  - right. eapply Hdone, Hok.
  - right. apply Hcrash, Hok.
  - left. destruct Hok as (nextRuns & ->).
    destruct (origin gr), nextRuns; reflexivity.
  - right. eapply Hdone, Hok.
  - right. apply Hcrash, Hok.
Qed.

(** *** The claims on the lock *)

(** C1: the update lock is a one-slot mailbox with one token. [Run]
    creates it with capacity one and one token in it. In every state of
    the process the token is in the slot, or with the one goroutine that is
    in a session, or taken by the main goroutine at shutdown; so no two
    sessions run at the same time. A goroutine that finds the slot empty
    is not blocked: it ends skipped and leaves the lock alone. A goroutine
    leaving its session, by return or by panic, can always run its deferred
    send, which puts the token back. *)
Theorem update_lock_mutual_exclusion (st : State) :
  reachable g c w filter st ->
  newUpdateLock = Some {| Chan.cap := 1; Chan.buf := [true] |} /\
  Chan.cap (lock st) = 1%nat /\
  (length (Chan.buf (lock st)) + sessions (pool st) + drained (main st) = 1)%nat /\
  (forall i j gi gj,
     pool st !! i = Some gi -> pool st !! j = Some gj ->
     in_session (pc gi) = true -> in_session (pc gj) = true -> i = j) /\
  (forall i gr u nextRuns,
     exited st = None -> pool st !! i = Some gr -> pc gr = AtSelect ->
     Chan.buf (lock st) = [] ->
     step g c w filter st (ActGo i u nextRuns)
     = Some (set_pool st (lock st)
               (<[i := at_pc gr (Finished Skipped)
                         (fst (skipped (origin gr) nextRuns))]> (pool st)))) /\
  (forall i gr v r u nextRuns,
     exited st = None -> pool st !! i = Some gr -> pc gr = Leaving v r ->
     step g c w filter st (ActGo i u nextRuns)
     = Some (set_pool st {| Chan.cap := 1; Chan.buf := [v] |}
               (<[i := at_pc gr (Finished (ending r)) []]> (pool st)))).
Proof.
  intros Hreach.
  destruct (invariant_reachable st Hreach) as ((Hcap & Htok) & _).
  split; [exact newUpdateLock_seeded|]. split; [exact Hcap|]. split; [exact Htok|].
  split; [|split].
  - intros i j gi gj. apply one_session, invariant_reachable, Hreach.
  - intros i gr u nextRuns Hex Hi Hpc Hbuf.
    unfold step. rewrite Hex, Hi. unfold gstep. rewrite Hpc.
    unfold Chan.recv. rewrite Hbuf. reflexivity.
  - intros i gr v r u nextRuns Hex Hi Hpc.
    pose proof (sessions_lookup (pool st) i gr Hi) as Hle.
    unfold weight in Hle. rewrite Hpc in Hle. cbn in Hle.
    unfold step. rewrite Hex, Hi. unfold gstep. rewrite Hpc.
    unfold Chan.send. destruct (lock st) as [n b]. cbn in *. subst n.
    destruct b as [|x b]; [reflexivity|cbn in Htok; lia].
Qed.


(** A goroutine left by a panic of [actions.Update] has registered no
    metric. *)
Lemma crashed_goroutine_registers_nothing (st : State) (i : nat) (gr : Goroutine) :
  reachable g c w filter st ->
  pool st !! i = Some gr ->
  pc gr = Finished Crashed ->
  scans (trace gr) = [].
Proof.
  intros Hreach Hi Hpc.
  destruct (invariant_reachable st Hreach) as (_ & _ & _ & Htr & _).
  pose proof (proj1 (Forall_lookup _ _) Htr i gr Hi) as Hok.
  unfold trace_ok in Hok. rewrite Hpc in Hok.
  destruct Hok as (u & nextRuns & es & out & Ha & ->).
  destruct (afterUpdate_stops _ _ _ _ _ Ha) as (_ & -> & _). reflexivity.
Qed.


(** C5: a request on [/v1/update], which exists only when the update API
    is enabled, calls [actions.Update] with no other parameters than the
    globals and the base filter narrowed by [filters.FilterByImage] to the
    images of the request. While it is in its session the slot of the one
    lock is empty and no other goroutine, tick or request, is in a session.
    When the session returns, what the request has done is the function
    given to [update.New] applied to the images: the session and then its
    metric registered. A request that found the slot empty called no
    update. *)
Theorem request_runs_narrowed_session (st : State) (i : nat) (gr : Goroutine)
    (images : list string) :
  reachable g c w filter st ->
  pool st !! i = Some gr ->
  origin gr = Request images ->
  flag_http_api_update c = true /\
  (forall p, In p (updates (trace gr)) ->
             p = sessionParams g (FilterByImage images filter)) /\
  (in_session (pc gr) = true ->
   Chan.buf (lock st) = [] /\
   forall j gj, pool st !! j = Some gj -> in_session (pc gj) = true -> j = i) /\
  match pc gr with
  | Leaving _ (Some m) | Finished (Completed m) =>
      exists u t,
        runUpdatesWithNotifications g (FilterByImage images filter) u
        = (t, Continue m) /\
        updateFunc g filter images u = (trace gr, Continue tt) /\
        scans (trace gr) = [Some m] /\
        updates (trace gr) = [sessionParams g (FilterByImage images filter)]
  | Finished Skipped => updates (trace gr) = [] /\ scans (trace gr) = [None]
  | _ => True
  end.
Proof.
  intros Hreach Hi Ho.
  pose proof (invariant_reachable st Hreach) as Hinv.
  destruct Hinv as (Htoken & _ & _ & Htr & Hreq).
  pose proof (proj1 (Forall_lookup _ _) Htr i gr Hi) as Hok.
  pose proof (proj1 (Forall_lookup _ _) Hreq i gr Hi) as Hflag.
  cbv beta in Hflag. rewrite Ho in Hflag. split; [now apply Hflag|].
  split.
  { intros p Hp. destruct (trace_updates gr Hok) as [Hu|Hu];
      rewrite Hu, ?Ho in Hp; cbn in Hp; intuition. }
  split.
  { intros Hs. split.
    - eapply slot_empty_in_session; eauto. apply invariant_reachable, Hreach.
    - intros j gj Hj Hsj.
      eapply one_session; eauto. apply invariant_reachable, Hreach. }
  assert (Hdone : forall m,
            (exists u nextRuns es,
               afterUpdate (origin gr) u nextRuns = (es, Continue m) /\
               trace gr = (fst (sessionBegin g (filterOf filter (origin gr))) ++ es)%list) ->
            exists u t,
              runUpdatesWithNotifications g (FilterByImage images filter) u
              = (t, Continue m) /\
              updateFunc g filter images u = (trace gr, Continue tt) /\
              scans (trace gr) = [Some m] /\
              updates (trace gr) = [sessionParams g (FilterByImage images filter)]).
  { intros m (u & nextRuns & es & Ha & Ht). rewrite Ho in Ha, Ht.
    destruct (afterUpdate_continues _ _ _ _ _ Ha)
      as (t & rest & Hrun & Hsplit & Hst & _ & _ & Hrest).
    rewrite (Hrest eq_refl) in Hsplit. cbn [filterOf] in *.
    rewrite Hsplit in Ht. exists u, t.
    split; [exact Hrun|]. split; [|split].
    - unfold updateFunc. rewrite (RootFacts.bind_continue _ _ _ _ Hrun), Ht.
      reflexivity.
    - rewrite Ht, scans_app, Hst. reflexivity.
    - rewrite Ht, updates_app. cbn. rewrite app_nil_r.
      pose proof (RootFacts.session_updates g (FilterByImage images filter) u) as Hu.
      now rewrite Hrun in Hu. }
  unfold trace_ok in Hok.
  destruct (pc gr) as [|v|v|v [m|]|[|m|]]; try exact I.
  - apply Hdone, Hok.
  - destruct Hok as (nextRuns & ->). rewrite Ho. split; reflexivity.
  - apply Hdone, Hok.
Qed.

End Concurrent.
(** *** The theorems on concrete runs *)

Import Demo.

Lemma reachable_run (acts : list Action) (st : State) :
  exec (globals apiFlags) apiFlags host watched (initial lock0) acts = Some st ->
  reachable (globals apiFlags) apiFlags host watched st.
Proof. intros Hrun. exists lock0, acts. split; [reflexivity | exact Hrun]. Qed.

(** Two overlapping ticks: one in its session, the other skipped, the slot
    empty. *)
Lemma update_lock_mutual_exclusion_witness :
  exec (globals apiFlags) apiFlags host watched (initial lock0) overlappingTicks
  = Some (after overlappingTicks) /\
  sessions (pool (after overlappingTicks)) = 1%nat /\
  Chan.buf (lock (after overlappingTicks)) = [] /\
  (length (Chan.buf (lock (after overlappingTicks)))
   + sessions (pool (after overlappingTicks))
   + drained (main (after overlappingTicks)) = 1)%nat.
Proof.
  split; [reflexivity|]. split; [reflexivity|]. split; [reflexivity|].
  exact (proj1 (proj2 (proj2
           (update_lock_mutual_exclusion (globals apiFlags) apiFlags host watched
              (after overlappingTicks)
              (reachable_run overlappingTicks _ eq_refl))))).
Defined.



(** A request for one image: its session ran over the narrowed filter and
    its metric was registered. *)
Lemma request_runs_narrowed_session_witness :
  exec (globals apiFlags) apiFlags host watched (initial lock0) servedRequest
  = Some (after servedRequest) /\
  pool (after servedRequest) !! 0%nat = Some (first (after servedRequest)) /\
  flag_http_api_update apiFlags = true /\
  scans (trace (first (after servedRequest)))
  = [Some {| Scanned := 3; Updated := 1; Failed := 0 |}] /\
  updates (trace (first (after servedRequest)))
  = [sessionParams (globals apiFlags) (FilterByImage ["nginx:latest"] watched)].
Proof.
  split; [reflexivity|]. split; [reflexivity|].
  destruct (request_runs_narrowed_session (globals apiFlags) apiFlags host watched
              (after servedRequest) 0%nat (first (after servedRequest))
              ["nginx:latest"]
              (reachable_run servedRequest _ eq_refl) eq_refl eq_refl)
    as (Hflag & _ & _ & Hdone).
  split; [exact Hflag|].
  destruct Hdone as (u & t & _ & _ & Hscans & Hupdates).
  split; [exact Hscans | exact Hupdates].
Defined.

End LockFacts.

(** * Further properties *)

(** ** [formatDuration] as a whole *)

Module FormatMore.
Import GoTime GoStrings Format FormatViews.
Local Open Scope string_scope.
Local Open Scope Z_scope.

Lemma append_assoc (a b c : string) : (a ++ b) ++ c = a ++ (b ++ c).
Proof. induction a as [|x a IH]; cbn; [reflexivity | now rewrite IH]. Qed.

(** X1: the text of a duration is its shown components joined by a comma
    and a space, in the order hours, minutes, seconds: no separator leads,
    trails or doubles, whichever components are left out. *)
Theorem formatDuration_joins_parts (d : Duration) :
  formatDuration d
  = Join (shown [hoursPart (hoursOf d); minutesPart (minutesOf d);
                 secondsPart (hoursOf d) (minutesOf d) (secondsOf d)]) ", ".
Proof.
  unfold formatDuration, durationWrites.
  generalize (hoursOf d) (minutesOf d) (secondsOf d). intros h m s.
  unfold formatWrites, WriteString, newBuilder, String,
    hoursPart, minutesPart, secondsPart.
  destruct (Z.eqb_spec h 1), (Z.eqb_spec h 0), (Z.eqb_spec m 1), (Z.eqb_spec m 0),
    (Z.eqb_spec s 1), (Z.eqb_spec s 0); try lia; cbn;
    rewrite ?append_assoc; reflexivity.
Qed.

(** Checked by running the code on each of the durations. *)
Lemma clock_agrees_two_hours :
  forallb clock_agrees (seq 0 (Z.to_nat 7200)) = true.
Proof. vm_compute. reflexivity. Qed.

(** X2: for every whole number of seconds within two hours of zero, on
    either side, the float arithmetic of [formatDuration] gives the hours,
    minutes and seconds a clock would: the integer quotients and
    remainders, truncated toward zero. *)
Theorem whole_seconds_split_as_a_clock (n : Z) :
  -7200 < n < 7200 ->
  components (n * Second) = clock n.
Proof.
  intros Hn.
  pose proof clock_agrees_two_hours as Hall. rewrite forallb_forall in Hall.
  assert (Hk : In (Z.to_nat (Z.abs n)) (seq 0 (Z.to_nat 7200)))
    by (apply in_seq; lia).
  specialize (Hall _ Hk). unfold clock_agrees in Hall.
  rewrite Z2Nat.id in Hall by lia.
  destruct (components (Z.abs n * Second)) as [[h m] s] eqn:Ep.
  destruct (clock (Z.abs n)) as [[h' m'] s'] eqn:Ec.
  destruct (components (- Z.abs n * Second)) as [[a b] c] eqn:En.
  destruct (clock (- Z.abs n)) as [[a' b'] c'] eqn:Ed.
  repeat (apply andb_prop in Hall; destruct Hall as [Hall ?]).
  repeat match goal with E : (_ =? _) = true |- _ => apply Z.eqb_eq in E end.
  subst. destruct (Z.abs_spec n) as [[_ Ha]|[_ Ha]]; rewrite Ha in *.
  - now rewrite Ep, Ec.
  - rewrite Z.opp_involutive in En, Ed. now rewrite En, Ed.
Qed.


(** One hour, one minute and one second. *)
Lemma whole_seconds_split_as_a_clock_witness :
  components (3661 * Second) = (1, 1, 1).
Proof.
  refine (whole_seconds_split_as_a_clock 3661 _). split; reflexivity.
Defined.

End FormatMore.

(** ** The paths through [PreRun] and [Run] *)

Module RootMore.
Import GoTime GoStrings Format Watchtower RootViews.
Local Open Scope string_scope.
Local Open Scope Z_scope.

Section Paths.
Context `{Collaborators}.

(** *** [PreRun] *)

(** X3: [PreRun] builds the Docker client, the notifier and the log hook
    only after every check has passed, as its last three actions, with the
    client options and the globals read off the flags. Every stop of
    [PreRun] is an exit with status 1 that has built nothing. [PreRun] goes
    on exactly when logging is set up, the timeout is not negative and the
    environment is configured; so monitor-only together with no-pull is
    not refused: it is one warning. *)
Theorem PreRun_builds_after_validation (f : FlagSet) (w : World) :
  match snd (PreRun f w) with
  | Stop o =>
      o = Exited 1 /\ existsb builds (fst (PreRun f w)) = false
  | Continue g =>
      g = globalsOf f /\
      exists logs,
        fst (PreRun f w)
        = (logs ++ [EvNewClient (clientOptionsOf f); EvNewNotifier; EvAddLogHook])%list /\
        existsb builds logs = false /\
        warnings logs
        = if flag_monitor_only f && flag_no_pull f
          then [[noPullMonitorOnlyWarning]] else []
  end /\
  (snd (PreRun f w) = Continue (globalsOf f) <->
   SetupLogging w = None /\ 0 <= flag_timeout f /\ EnvConfig w = None).
Proof.
  split.
  - unfold PreRun, ReadFlags.
    destruct (SetupLogging w) as [e|]; [cbn; auto|].
    destruct (Z.ltb_spec (flag_timeout f) 0) as [Hneg|Hpos]; [cbn; auto|].
    destruct (EnvConfig w) as [e|];
      destruct (String.eqb (flag_scope f) ""); cbn; auto.
    all: destruct (flag_monitor_only f && flag_no_pull f); cbn;
      (split; [reflexivity|]);
      first [ exists []; repeat split; reflexivity
            | eexists [_]; repeat split; reflexivity
            | eexists [_; _]; repeat split; reflexivity ].
  - unfold PreRun, ReadFlags.
    destruct (SetupLogging w) as [e|];
      [cbn; split; [discriminate | intros (E & _); discriminate]|].
    destruct (Z.ltb_spec (flag_timeout f) 0) as [Hneg|Hpos];
      [cbn; split; [discriminate | intros (_ & Ht & _); lia]|].
    destruct (EnvConfig w) as [e|];
      destruct (String.eqb (flag_scope f) "");
      destruct (flag_monitor_only f && flag_no_pull f); cbn;
      (split; [try discriminate; auto | intros (_ & _ & E); try discriminate; reflexivity]).
Qed.

(** *** [Run] *)

Ltac name_message c w sched desc t :=
  destruct (writeStartupMessage c w sched desc) as [t ?r] eqn:?E.

(** The trace of a run-once [Run] that passes the checks. *)
Lemma Run_once_trace (g : Globals) (c : FlagSet) (names : list string) (w : World) :
  passes_checks g c w ->
  flag_run_once c = true ->
  fst (Run g c names w)
  = (fst awaitDockerClient
     ++ [EvCheckForSanity (filterFor g names) (rollingRestart g)]
     ++ fst (writeStartupMessage c w zeroTime (filterDescFor g names))
     ++ fst (runUpdatesWithNotifications g (filterFor g names) (Update w))
     ++ match Update w with
        | UpdateReturns _ _ => [EvNotifierClose; EvExit 0]
        | UpdatePanics => []
        end)%list.
Proof.
  intros (Hh & Hrm & Hs) Ho. unfold Run, filterFor, filterDescFor.
  destruct (BuildFilter _ _ _ _) as [filter filterDesc]. cbn [fst snd].
  rewrite Hh, Hrm, Hs, Ho.
  pose proof (proj1 (RootFacts.writeStartupMessage_continues c w zeroTime filterDesc)) as Hw.
  destruct (writeStartupMessage c w zeroTime filterDesc) as [tz rz].
  cbn [snd] in Hw. subst rz.
  destruct (Update w) as [result [e|]|]; cbn; rewrite <- ?app_assoc; reflexivity.
Qed.

(** The trace of a [Run] that passes the checks, is not run-once and finds
    no other instance. *)
Lemma Run_daemon_trace (g : Globals) (c : FlagSet) (names : list string) (w : World) :
  passes_checks g c w ->
  flag_run_once c = false ->
  CheckForMultipleWatchtowerInstances w = None ->
  fst (Run g c names w)
  = (fst awaitDockerClient
     ++ [EvCheckForSanity (filterFor g names) (rollingRestart g);
         EvCheckForMultipleWatchtowerInstances (cleanup g) (scope g)]
     ++ daemonTrace g c names w)%list.
Proof.
  intros (Hh & Hrm & Hs) Ho Hm.
  unfold Run, runUpgradesOnSchedule, daemonTrace, apiBlocks, filterFor, filterDescFor.
  destruct (BuildFilter _ _ _ _) as [filter filterDesc]. cbn [fst snd].
  rewrite Hh, Hrm, Hs, Ho, Hm.
  pose proof (proj1 (RootFacts.writeStartupMessage_continues c w zeroTime filterDesc)) as Hz.
  destruct (writeStartupMessage c w zeroTime filterDesc) as [tz rz].
  cbn [snd] in Hz. subst rz.
  pose proof (proj1 (RootFacts.writeStartupMessage_continues c w (FirstRun w) filterDesc)) as Hf.
  destruct (writeStartupMessage c w (FirstRun w) filterDesc) as [tf rf].
  cbn [snd] in Hf. subst rf.
  destruct (flag_http_api_update c), (flag_http_api_periodic_polls c),
    (flag_http_api_metrics c); cbn [andb negb];
    destruct (APIStart w _) as [[[|msg]|]|];
    destruct (AddFunc w (scheduleSpec g)) as [err|], (Interrupt w), (LockFreed w);
    cbn; rewrite <- ?app_assoc; cbn; reflexivity.
Qed.

(** *** Counting over traces *)

Lemma closes_app (t t' : list Event) :
  closes (t ++ t') = (closes t + closes t')%nat.
Proof. induction t as [|e t IH]; cbn; [reflexivity|]. destruct e; cbn; now rewrite ?IH. Qed.

Lemma errors_app (t t' : list Event) :
  errors (t ++ t') = (errors t ++ errors t')%list.
Proof.
  induction t as [|e t IH]; cbn; [reflexivity|].
  destruct e as [[|] [| | | |] args| | | | | | | | | | | | | | | | | | | | | | |];
    cbn; now rewrite ?IH.
Qed.

Lemma banners_app (t t' : list Event) :
  banners (t ++ t') = (banners t + banners t')%nat.
Proof. induction t as [|e t IH]; cbn; [reflexivity|]. rewrite IH. lia. Qed.

(** What the startup message does not do, and its one banner. *)
Lemma writeStartupMessage_quiet (c : FlagSet) (w : World) (sched : Time)
    (filtering : string) :
  closes (fst (writeStartupMessage c w sched filtering)) = 0%nat /\
  errors (fst (writeStartupMessage c w sched filtering)) = [] /\
  existsb daemon_only (fst (writeStartupMessage c w sched filtering)) = false /\
  existsb on_cron (fst (writeStartupMessage c w sched filtering)) = false /\
  banners (fst (writeStartupMessage c w sched filtering)) = 1%nat /\
  updates (fst (writeStartupMessage c w sched filtering)) = [].
Proof.
  unfold writeStartupMessage.
  destruct (flag_no_startup_message c), (0 <? length (GetNames w))%nat,
    (IsZero sched), (flag_run_once c), (flag_http_api_update c),
    (TraceLevelEnabled w); repeat split.
Qed.

Lemma session_quiet (g : Globals) (filter : Filter) (u : UpdateOutcome) :
  closes (fst (runUpdatesWithNotifications g filter u)) = 0%nat /\
  existsb daemon_only (fst (runUpdatesWithNotifications g filter u)) = false /\
  banners (fst (runUpdatesWithNotifications g filter u)) = 0%nat.
Proof. destruct u as [result [e|]|]; repeat split. Qed.

(** The daemon part of [Run], seen through the counters. *)
Lemma daemonTrace_views (g : Globals) (c : FlagSet) (names : list string) (w : World) :
  closes (daemonTrace g c names w) = 0%nat /\
  errors (daemonTrace g c names w)
  = (match APIStart w (apiBlocks c) with
     | Some (Some err) =>
         if is_ErrServerClosed err then []
         else [["failed to start API"; Error err]]
     | _ => []
     end
     ++ match APIStart w (apiBlocks c), AddFunc w (scheduleSpec g) with
        | Some _, Some err => [[Error err]]
        | _, _ => []
        end)%list /\
  existsb on_cron (daemonTrace g c names w)
  = match APIStart w (apiBlocks c) with Some _ => true | None => false end /\
  banners (daemonTrace g c names w)
  = ((if apiBlocks c then 1 else 0)
     + match APIStart w (apiBlocks c), AddFunc w (scheduleSpec g) with
       | Some _, None => 1
       | _, _ => 0
       end)%nat.
Proof.
  unfold daemonTrace, apiBlocks.
  destruct (writeStartupMessage_quiet c w zeroTime (filterDescFor g names))
    as (Hz1 & Hz2 & _ & Hz3 & Hz4 & _).
  destruct (writeStartupMessage_quiet c w (FirstRun w) (filterDescFor g names))
    as (Hf1 & Hf2 & _ & Hf3 & Hf4 & _).
  destruct (flag_http_api_update c), (flag_http_api_periodic_polls c),
    (flag_http_api_metrics c); cbn [andb negb];
    destruct (APIStart w _) as [[[|msg]|]|];
    destruct (AddFunc w (scheduleSpec g)) as [err|], (Interrupt w), (LockFreed w);
    repeat (cbn; rewrite ?closes_app, ?errors_app, ?existsb_app, ?banners_app,
              ?Hz1, ?Hz2, ?Hz3, ?Hz4, ?Hf1, ?Hf2, ?Hf3, ?Hf4);
    repeat split.
Qed.

Lemma daemonTrace_updates (g : Globals) (c : FlagSet) (names : list string)
    (w : World) :
  updates (daemonTrace g c names w) = [].
Proof.
  unfold daemonTrace.
  destruct (writeStartupMessage_quiet c w zeroTime (filterDescFor g names))
    as (_ & _ & _ & _ & _ & Hz).
  destruct (writeStartupMessage_quiet c w (FirstRun w) (filterDescFor g names))
    as (_ & _ & _ & _ & _ & Hf).
  destruct (flag_http_api_update c), (flag_http_api_periodic_polls c),
    (flag_http_api_metrics c), (APIStart w _) as [[[|msg]|]|],
    (AddFunc w (scheduleSpec g)) as [err|], (Interrupt w), (LockFreed w);
    repeat (cbn; rewrite ?LockFacts.updates_app, ?Hz, ?Hf); reflexivity.
Qed.

(** X4: [notifier.Close] is called once on a failed sanity check, on a found
    second instance and at the end of a run-once session that returned; on
    no other path of [Run], the daemon's exit with status 1 included. *)
Theorem notifier_closed_on_three_paths (g : Globals) (c : FlagSet)
    (names : list string) (w : World) :
  closes (fst (Run g c names w))
  = if flag_health_check c then 0%nat
    else if rollingRestart g && monitorOnly g then 0%nat
    else match CheckForSanity w with
    | Some _ => 1%nat
    | None =>
        if flag_run_once c then
          match Update w with
          | UpdateReturns _ _ => 1%nat
          | UpdatePanics => 0%nat
          end
        else match CheckForMultipleWatchtowerInstances w with
        | Some _ => 1%nat
        | None => 0%nat
        end
    end.
Proof.
  destruct (flag_health_check c) eqn:Hh.
  { rewrite (RootFacts.Run_health_check g c names w Hh).
    destruct (Getpid w =? 1); reflexivity. }
  destruct (rollingRestart g && monitorOnly g) eqn:Hrm.
  { now rewrite (RootFacts.Run_rolling_monitor g c names w Hh Hrm). }
  destruct (CheckForSanity w) as [err|] eqn:Hs.
  { unfold Run. destruct (BuildFilter _ _ _ _) as [filter filterDesc].
    rewrite Hh, Hrm, Hs. reflexivity. }
  destruct (flag_run_once c) eqn:Ho.
  { rewrite Run_once_trace by (unfold passes_checks; auto).
    destruct (writeStartupMessage_quiet c w zeroTime (filterDescFor g names)) as (Hz & _).
    destruct (session_quiet g (filterFor g names) (Update w)) as (Hu & _).
    rewrite !closes_app, Hz, Hu. destruct (Update w); reflexivity. }
  destruct (CheckForMultipleWatchtowerInstances w) as [err|] eqn:Hm.
  { unfold Run. destruct (BuildFilter _ _ _ _) as [filter filterDesc].
    rewrite Hh, Hrm, Hs, Ho, Hm. reflexivity. }
  rewrite Run_daemon_trace by (unfold passes_checks; auto).
  rewrite !closes_app, (proj1 (daemonTrace_views g c names w)). reflexivity.
Qed.

(** X6: a run-once [Run] is no daemon: whatever the flags and the host, it
    makes no check for other instances and touches neither the HTTP API nor
    the scheduler nor the signals. *)
Theorem run_once_is_no_daemon (g : Globals) (c : FlagSet) (names : list string)
    (w : World) :
  flag_run_once c = true ->
  existsb daemon_only (fst (Run g c names w)) = false.
Proof.
  intros Ho.
  destruct (flag_health_check c) eqn:Hh.
  { rewrite (RootFacts.Run_health_check g c names w Hh).
    destruct (Getpid w =? 1); reflexivity. }
  destruct (rollingRestart g && monitorOnly g) eqn:Hrm.
  { now rewrite (RootFacts.Run_rolling_monitor g c names w Hh Hrm). }
  destruct (CheckForSanity w) as [err|] eqn:Hs.
  { unfold Run. destruct (BuildFilter _ _ _ _) as [filter filterDesc].
    rewrite Hh, Hrm, Hs. reflexivity. }
  rewrite Run_once_trace by (unfold passes_checks; auto).
  destruct (writeStartupMessage_quiet c w zeroTime (filterDescFor g names)) as (_ & _ & Hz & _).
  destruct (session_quiet g (filterFor g names) (Update w)) as (_ & Hu & _).
  rewrite !existsb_app, Hz, Hu. destruct (Update w); reflexivity.
Qed.

(** X7: in the daemon the scheduler is created exactly when [httpAPI.Start]
    returns, whatever it returns: an API that fails to start does not stop
    [Run], and an API that keeps serving leaves [Run] blocked before any
    scheduler exists. *)
Theorem scheduler_follows_api_start (g : Globals) (c : FlagSet)
    (names : list string) (w : World) :
  passes_checks g c w ->
  flag_run_once c = false ->
  CheckForMultipleWatchtowerInstances w = None ->
  existsb on_cron (fst (Run g c names w))
  = match APIStart w (apiBlocks c) with Some _ => true | None => false end /\
  (APIStart w (apiBlocks c) = None -> snd (Run g c names w) = Stop Blocked).
Proof.
  intros Hp Ho Hm. split.
  - rewrite Run_daemon_trace by assumption.
    rewrite !existsb_app.
    now rewrite (proj1 (proj2 (proj2 (daemonTrace_views g c names w)))).
  - intros Hb. destruct Hp as (Hh & Hrm & Hs). unfold apiBlocks in Hb.
    now rewrite RootFacts.Run_outcome, Hh, Hrm, Hs, Ho, Hm, Hb.
Qed.

(** X8: the errors the daemon logs on its way are the failure of the API to
    start, unless it is [http.ErrServerClosed], and then the refusal of the
    schedule; nothing else. *)
Theorem daemon_logs_two_errors (g : Globals) (c : FlagSet)
    (names : list string) (w : World) :
  passes_checks g c w ->
  flag_run_once c = false ->
  CheckForMultipleWatchtowerInstances w = None ->
  errors (fst (Run g c names w))
  = (match APIStart w (apiBlocks c) with
     | Some (Some err) =>
         if is_ErrServerClosed err then []
         else [["failed to start API"; Error err]]
     | _ => []
     end
     ++ match APIStart w (apiBlocks c), AddFunc w (scheduleSpec g) with
        | Some _, Some err => [[Error err]]
        | _, _ => []
        end)%list.
Proof.
  intros Hp Ho Hm. rewrite Run_daemon_trace by assumption.
  rewrite !errors_app.
  now rewrite (proj1 (proj2 (daemonTrace_views g c names w))).
Qed.

(** X9: how often the startup message is written. Once in a run-once [Run]
    that passes the checks. In the daemon, once before an API started in
    the blocking way and once when the scheduler has taken the schedule: so
    twice when a blocking API returns and the schedule is accepted, and
    not at all when the API does not block and the schedule is refused. *)
Theorem startup_message_count (g : Globals) (c : FlagSet)
    (names : list string) (w : World) :
  passes_checks g c w ->
  (flag_run_once c = true -> banners (fst (Run g c names w)) = 1%nat) /\
  (flag_run_once c = false ->
   CheckForMultipleWatchtowerInstances w = None ->
   banners (fst (Run g c names w))
   = ((if apiBlocks c then 1 else 0)
      + match APIStart w (apiBlocks c), AddFunc w (scheduleSpec g) with
        | Some _, None => 1
        | _, _ => 0
        end)%nat).
Proof.
  intros Hp. split.
  - intros Ho. rewrite Run_once_trace by assumption.
    destruct (writeStartupMessage_quiet c w zeroTime (filterDescFor g names))
      as (_ & _ & _ & _ & Hz & _).
    destruct (session_quiet g (filterFor g names) (Update w)) as (_ & _ & Hu).
    rewrite !banners_app, Hz, Hu. destruct (Update w); reflexivity.
  - intros Ho Hm. rewrite Run_daemon_trace by assumption.
    rewrite !banners_app.
    now rewrite (proj2 (proj2 (proj2 (daemonTrace_views g c names w)))).
Qed.

(** X5: the main goroutine runs a session only in run-once mode: [Run]
    calls [actions.Update] once, over the filter built from the names and
    with the globals as parameters, when it is run-once and passes the
    checks, and never otherwise. *)
Theorem Run_updates_only_when_run_once (g : Globals) (c : FlagSet)
    (names : list string) (w : World) :
  updates (fst (Run g c names w))
  = if flag_health_check c then []
    else if rollingRestart g && monitorOnly g then []
    else match CheckForSanity w with
    | Some _ => []
    | None =>
        if flag_run_once c then [sessionParams g (filterFor g names)] else []
    end.
Proof.
  destruct (flag_health_check c) eqn:Hh.
  { rewrite (RootFacts.Run_health_check g c names w Hh).
    destruct (Getpid w =? 1); reflexivity. }
  destruct (rollingRestart g && monitorOnly g) eqn:Hrm.
  { now rewrite (RootFacts.Run_rolling_monitor g c names w Hh Hrm). }
  destruct (CheckForSanity w) as [err|] eqn:Hs.
  { unfold Run. destruct (BuildFilter _ _ _ _) as [filter filterDesc].
    rewrite Hh, Hrm, Hs. reflexivity. }
  destruct (flag_run_once c) eqn:Ho.
  { rewrite Run_once_trace by (unfold passes_checks; auto).
    destruct (writeStartupMessage_quiet c w zeroTime (filterDescFor g names))
      as (_ & _ & _ & _ & _ & Hz).
    rewrite !LockFacts.updates_app, Hz, RootFacts.session_updates.
    destruct (Update w); reflexivity. }
  destruct (CheckForMultipleWatchtowerInstances w) as [err|] eqn:Hm.
  { unfold Run. destruct (BuildFilter _ _ _ _) as [filter filterDesc].
    rewrite Hh, Hrm, Hs, Ho, Hm. reflexivity. }
  rewrite Run_daemon_trace by (unfold passes_checks; auto).
  rewrite !LockFacts.updates_app, daemonTrace_updates. reflexivity.
Qed.

(** *** [writeStartupMessage] *)

(** X10: the startup message is a batch of four to six info entries on one
    logger: the local log when startup messages are switched off, else the
    standard logger, and only then is the batch put between
    [StartNotification] and [SendNotification(nil)]. The warning about the
    trace level is written after the batch was sent. The batch tells the
    time to the first run, rendered by [formatDuration], when a first run
    is given, and otherwise that this is a one time update or that periodic
    runs are not enabled. *)
Theorem startup_message_batch (c : FlagSet) (w : World) (sched : Time)
    (filtering : string) :
  exists batch,
    fst (writeStartupMessage c w sched filtering)
    = ((if flag_no_startup_message c then [] else [EvStartNotification])
       ++ batch
       ++ (if flag_no_startup_message c then [] else [EvSendNotification nilReport])
       ++ (if TraceLevelEnabled w
           then [EvLog (startupLogger c) WarnLevel [traceWarning]] else []))%list /\
    forallb (is_info_on (startupLogger c)) batch = true /\
    (4 <= length batch <= 6)%nat /\
    In (EvLog (startupLogger c) InfoLevel
          [if IsZero sched
           then if flag_run_once c then "Running a one time update."
                else "Periodic runs are not enabled."
           else "Note that the first check will be performed in "
                ++ formatDuration (Until sched)]) batch.
Proof.
  unfold writeStartupMessage, startupLogger.
  destruct (flag_no_startup_message c), (0 <? length (GetNames w))%nat,
    (IsZero sched), (flag_run_once c), (flag_http_api_update c),
    (TraceLevelEnabled w);
    first [ eexists [_; _; _; _]; split; [reflexivity|]
          | eexists [_; _; _; _; _]; split; [reflexivity|]
          | eexists [_; _; _; _; _; _]; split; [reflexivity|] ];
    (split; [reflexivity|]); (split; [cbn; lia|]); cbn; auto 10.
Qed.

Lemma startup_message_batch_in (c : FlagSet) (w : World) (filtering : string) :
  flag_run_once c = false ->
  In (EvLog (startupLogger c) InfoLevel ["Periodic runs are not enabled."])
     (fst (writeStartupMessage c w zeroTime filtering)).
Proof.
  intros Ho. unfold writeStartupMessage, startupLogger. rewrite Ho.
  destruct (flag_no_startup_message c), (0 <? length (GetNames w))%nat,
    (flag_http_api_update c), (TraceLevelEnabled w); cbn; auto 10.
Qed.

(** X11: with the update API enabled and periodic polls not, the daemon's
    first startup message says that periodic runs are not enabled. *)
Theorem blocking_api_announces_no_periodic_runs (g : Globals) (c : FlagSet)
    (names : list string) (w : World) :
  passes_checks g c w ->
  flag_run_once c = false ->
  CheckForMultipleWatchtowerInstances w = None ->
  apiBlocks c = true ->
  In (EvLog (startupLogger c) InfoLevel ["Periodic runs are not enabled."])
     (fst (Run g c names w)).
Proof.
  intros Hp Ho Hm Hb. rewrite Run_daemon_trace by assumption.
  unfold daemonTrace. unfold apiBlocks in Hb.
  destruct (flag_http_api_update c); [|discriminate].
  destruct (flag_http_api_periodic_polls c); [discriminate|].
  pose proof (startup_message_batch_in c w (filterDescFor g names) Ho) as Hin.
  repeat (rewrite in_app_iff; cbn [In]). tauto.
Qed.

End Paths.

(** *** The theorems at concrete inputs *)

Import Demo Samples.

(** Monitor-only with no-pull on a host where all is set up: [PreRun] goes
    on, with the one warning. *)
Lemma PreRun_builds_after_validation_witness :
  snd (PreRun watchOnlyFlags host) = Continue (globalsOf watchOnlyFlags) /\
  fst (PreRun watchOnlyFlags host)
  = [EvLog StandardLogger WarnLevel [noPullMonitorOnlyWarning];
     EvNewClient (clientOptionsOf watchOnlyFlags); EvNewNotifier; EvAddLogHook].
Proof.
  split; [|reflexivity].
  apply (proj2 (PreRun_builds_after_validation watchOnlyFlags host)).
  split; [reflexivity|]. split; [|reflexivity].
  vm_compute. discriminate.
Defined.

Lemma run_once_is_no_daemon_witness :
  existsb daemon_only (fst (Run (globals onceFlags) onceFlags ["nginx"] host)) = false.
Proof.
  exact (run_once_is_no_daemon (globals onceFlags) onceFlags ["nginx"] host eq_refl).
Defined.

Lemma checks_passed_on_busyHost :
  passes_checks (globals blockingFlags) blockingFlags busyHost.
Proof. repeat split. Qed.

Lemma scheduler_follows_api_start_witness :
  existsb on_cron (fst (Run (globals blockingFlags) blockingFlags [] busyHost)) = true.
Proof.
  exact (proj1 (scheduler_follows_api_start (globals blockingFlags) blockingFlags []
                  busyHost checks_passed_on_busyHost eq_refl eq_refl)).
Defined.

Lemma daemon_logs_two_errors_witness :
  errors (fst (Run (globals blockingFlags) blockingFlags [] busyHost))
  = [["failed to start API"; "listen tcp :8080: bind: address already in use"];
     ["Empty spec string"]].
Proof.
  exact (daemon_logs_two_errors (globals blockingFlags) blockingFlags []
           busyHost checks_passed_on_busyHost eq_refl eq_refl).
Defined.

Lemma startup_message_count_witness :
  banners (fst (Run (globals blockingFlags) blockingFlags [] busyHost)) = 1%nat /\
  banners (fst (Run (globals onceFlags) onceFlags [] host)) = 1%nat.
Proof.
  split.
  - exact (proj2 (startup_message_count (globals blockingFlags) blockingFlags []
                    busyHost checks_passed_on_busyHost) eq_refl eq_refl).
  - refine (proj1 (startup_message_count (globals onceFlags) onceFlags []
                     host _) eq_refl).
    repeat split.
Defined.

Lemma blocking_api_announces_no_periodic_runs_witness :
  In (EvLog StandardLogger InfoLevel ["Periodic runs are not enabled."])
     (fst (Run (globals blockingFlags) blockingFlags [] busyHost)).
Proof.
  exact (blocking_api_announces_no_periodic_runs (globals blockingFlags)
           blockingFlags [] busyHost checks_passed_on_busyHost
           eq_refl eq_refl eq_refl).
Defined.

End RootMore.

(** ** More on the goroutines and the lock *)

Module LockMore.
Import GoTime GoStrings Format Watchtower LockViews.
Local Open Scope string_scope.
Local Open Scope Z_scope.

Section Interleaved.
Context `{Collaborators}.
Variables (g : Globals) (c : FlagSet) (w : World) (filter : Filter).

Lemma notes_app (t t' : list Event) :
  notes (t ++ t') = (notes t ++ notes t')%list.
Proof.
  induction t as [|e t IH]; cbn; [reflexivity|].
  destruct e; cbn; now rewrite ?IH.
Qed.



(** X12: the scheduled function leaves a one-slot lock as it found it,
    whatever the update does: the token is back in the slot after a session
    that returned or panicked, and an empty slot stays empty. *)
Theorem scheduledFunc_restores_lock (lk : Chan.t) (u : UpdateOutcome)
    (nextRuns : list string) :
  Chan.cap lk = 1%nat ->
  (length (Chan.buf lk) <= 1)%nat ->
  snd (scheduledFunc g filter lk u nextRuns) = Some lk.
Proof.
  destruct lk as [n b]. cbn [Chan.cap Chan.buf]. intros -> Hlen.
  destruct b as [|v [|v' b]]; [| |cbn in Hlen; lia]; reflexivity.
Qed.

(** *** Running one goroutine to its end *)

Lemma exec_app (acts acts' : list Action) (st : State) :
  exec g c w filter st (acts ++ acts')
  = match exec g c w filter st acts with
    | Some st' => exec g c w filter st' acts'
    | None => None
    end.
Proof.
  revert st. induction acts as [|a acts IH]; intros st; cbn; [reflexivity|].
  destruct (step g c w filter st a); [apply IH | reflexivity].
Qed.

Lemma session_found (p : list Goroutine) :
  (0 < sessions p)%nat ->
  exists i gr, p !! i = Some gr /\ in_session (pc gr) = true.
Proof.
  induction p as [|x p IH]; cbn; [lia|]. intros Hpos.
  destruct (in_session (pc x)) eqn:Hx.
  - exists 0%nat, x. auto.
  - unfold weight in Hpos. rewrite Hx in Hpos.
    destruct (IH Hpos) as (i & gr & Hi & Hs). exists (S i), gr. auto.
Qed.

(** A goroutine with the slot empty behind it runs through what is left of
    its session; its token ends in the slot. *)
Lemma run_to_end (i : nat) (u : UpdateOutcome) (nextRuns : list string) (n : nat) :
  forall (st : State) (gr : Goroutine),
    exited st = None ->
    Chan.cap (lock st) = 1%nat ->
    trace_ok g filter gr ->
    pool st !! i = Some gr ->
    steps_left (pc gr) = n ->
    (in_session (pc gr) = true -> Chan.buf (lock st) = []) ->
    exists st',
      exec g c w filter st (repeat (ActGo i u nextRuns) n) = Some st' /\
      main st' = main st /\ cron st' = cron st /\ exited st' = None /\
      Chan.cap (lock st') = 1%nat /\
      length (Chan.buf (lock st')) = (length (Chan.buf (lock st)) + weight (pc gr))%nat /\
      (sessions (pool st') + weight (pc gr))%nat = sessions (pool st).
Proof.
  induction n as [|n IH]; intros st gr Hex Hcap Hok Hi Hleft Hslot.
  - exists st. cbn.
    assert (Hw : weight (pc gr) = 0%nat)
      by (destruct (pc gr); try discriminate; reflexivity).
    rewrite Hw. repeat split; auto; lia.
  - assert (Hin : in_session (pc gr) = true)
      by (destruct (pc gr); try discriminate; reflexivity).
    assert (Hstep : exists lk' gr',
              gstep g filter (lock st) gr u nextRuns = Some (lk', gr') /\
              steps_left (pc gr') = n /\
              (in_session (pc gr') = true -> Chan.buf lk' = [])).
    { unfold gstep. specialize (Hslot Hin).
      destruct (pc gr) as [|v|v|v r|e]; try discriminate.
      - injection Hleft as <-. eauto.
      - injection Hleft as <-.
        destruct (afterUpdate (origin gr) u nextRuns) as [es [m|out]]; eauto.
      - injection Hleft as <-. unfold Chan.send. rewrite Hslot, Hcap. cbn.
        do 2 eexists. split; [reflexivity|]. split; [reflexivity|]. discriminate. }
    destruct Hstep as (lk' & gr' & Hg & Hleft' & Hslot').
    destruct (LockFacts.gstep_keeps g filter _ _ _ _ _ _ Hcap Hok Hg)
      as (Hcap' & _ & Hok' & Hw).
    pose proof (LockFacts.sessions_insert (pool st) i gr gr' Hi) as Hs.
    assert (Hi' : (<[i := gr']> (pool st)) !! i = Some gr').
    { apply list_lookup_insert_eq. eapply lookup_lt_Some, Hi. }
    destruct (IH (set_pool st lk' (<[i := gr']> (pool st))) gr'
                Hex Hcap' Hok' Hi' Hleft' Hslot')
      as (st' & Hrun & Hm & Hc & Hex' & Hcap'' & Hlen & Hses).
    exists st'. cbn [repeat exec]. unfold step at 1. rewrite Hex, Hi, Hg.
    cbn [set_pool lock pool main cron exited] in *.
    repeat split; auto; lia.
Qed.

(** X14: shutdown completes. Once the main goroutine waits on the lock, it
    is held up by nothing but the session in flight: letting that one
    goroutine take the at most three steps it has left frees the token, and
    the main goroutine returns with no session in flight. *)
Theorem shutdown_completes (st : State) (u : UpdateOutcome)
    (nextRuns : list string) :
  reachable g c w filter st ->
  main st = Draining ->
  exists i n st',
    (n <= 3)%nat /\
    exec g c w filter st (finish_then_main i u nextRuns n) = Some st' /\
    main st' = Returned None /\ sessions (pool st') = 0%nat /\ exited st' = None.
Proof.
  intros Hreach Hm.
  destruct (LockFacts.invariant_reachable g c w filter st Hreach)
    as ((Hcap & Htok) & _ & Hexit & Htr & _).
  assert (Hex : exited st = None).
  { unfold exit_ok in Hexit. destruct (exited st); [|reflexivity].
    destruct Hexit as (_ & r & Hr). congruence. }
  rewrite Hm in Htok. cbn in Htok.
  assert (Hdrain : forall st1,
            main st1 = Draining -> exited st1 = None ->
            length (Chan.buf (lock st1)) = 1%nat ->
            sessions (pool st1) = 0%nat ->
            exists st', exec g c w filter st1 [ActMain] = Some st' /\
                        main st' = Returned None /\
                        sessions (pool st') = 0%nat /\ exited st' = None).
  { intros st1 Hm1 Hex1 Hlen Hs. cbn. unfold step, main_step, Chan.recv.
    rewrite Hex1, Hm1. destruct (Chan.buf (lock st1)) as [|v b]; [discriminate|].
    eexists. split; [reflexivity|]. cbn. auto. }
  destruct (sessions (pool st)) as [|k] eqn:Hs.
  - destruct (Hdrain st Hm Hex ltac:(lia) Hs) as (st' & Hrun & Hdone).
    exists 0%nat, 0%nat, st'. split; [lia|]. split; [exact Hrun | exact Hdone].
  - destruct (session_found (pool st) ltac:(lia)) as (i & gr & Hi & Hin).
    assert (Hslot : Chan.buf (lock st) = [])
      by (destruct (Chan.buf (lock st)); [reflexivity | cbn in Htok; lia]).
    destruct (run_to_end i u nextRuns (steps_left (pc gr)) st gr Hex Hcap
                (proj1 (Forall_lookup _ _) Htr i gr Hi) Hi eq_refl (fun _ => Hslot))
      as (st1 & Hrun & Hm1 & _ & Hex1 & _ & Hlen & Hses).
    unfold weight in Hlen, Hses. rewrite Hin, Hslot in *. cbn in Hlen.
    destruct (Hdrain st1 ltac:(congruence) Hex1 Hlen ltac:(lia))
      as (st' & Hrun' & Hdone).
    exists i, (steps_left (pc gr)), st'.
    split; [destruct (pc gr); cbn; lia|].
    split; [|exact Hdone].
    unfold finish_then_main. now rewrite exec_app, Hrun.
Qed.

(** *** A refused schedule *)

Lemma gstep_origin (lk lk' : Chan.t) (gr gr' : Goroutine) (u : UpdateOutcome)
    (nextRuns : list string) :
  gstep g filter lk gr u nextRuns = Some (lk', gr') -> origin gr' = origin gr.
Proof.
  unfold gstep. destruct (pc gr) as [|v|v|v r|e].
  - destruct (Chan.recv lk) as [[v lk1]|]; now intros [= <- <-].
  - now intros [= <- <-].
  - destruct (afterUpdate _ _ _) as [es [m|out]]; now intros [= <- <-].
  - destruct (Chan.send lk v); [now intros [= <- <-] | discriminate].
  - discriminate.
Qed.

(** X15: when the cron library refuses the schedule, the scheduler never
    runs and no tick goroutine ever exists: the main goroutine goes from
    the start straight to the return with that error. Requests of the HTTP
    API are the only goroutines there can be. *)
Theorem refused_schedule_never_ticks (st : State) (err : error) :
  reachable g c w filter st ->
  AddFunc w (scheduleSpec g) = Some err ->
  cron st = false /\
  forallb (fun gr => is_request (origin gr)) (pool st) = true /\
  (main st = Starting \/ main st = Returned (Some err)).
Proof.
  intros (l & acts & _ & Hrun) Hadd.
  assert (Hinit : cron (initial l) = false /\
                  forallb (fun gr => is_request (origin gr)) (pool (initial l)) = true /\
                  (main (initial l) = Starting \/
                   main (initial l) = Returned (Some err)))
    by (cbn; auto).
  revert Hrun Hinit. generalize (initial l). clear l.
  induction acts as [|a acts IH]; intros st0; cbn.
  - now intros [= <-].
  - destruct (step g c w filter st0 a) as [st1|] eqn:Hs; [|discriminate].
    intros Hrun (Hc & Hp & Hm). apply (IH st1 Hrun). clear IH Hrun.
    revert Hs. unfold step. destruct (exited st0); [discriminate|].
    destruct a as [|images|i u nextRuns| |].
    + rewrite Hc. discriminate.
    + destruct (flag_http_api_update c); [|discriminate]. intros [= <-]. cbn.
      rewrite forallb_app, Hp. auto.
    + destruct (pool st0 !! i) as [gr|] eqn:Hi; [|discriminate].
      destruct (gstep g filter (lock st0) gr u nextRuns) as [[lk' gr']|] eqn:Hg;
        [|discriminate].
      intros [= <-]. cbn. split; [exact Hc|]. split; [|exact Hm].
      rewrite forallb_forall in *. intros x Hx.
      apply list_elem_of_In, list_elem_of_lookup in Hx. destruct Hx as (j & Hj).
      destruct (Nat.eq_dec j i) as [->|Hne].
      * rewrite list_lookup_insert_eq in Hj by (eapply lookup_lt_Some, Hi).
        injection Hj as <-. rewrite (gstep_origin _ _ _ _ _ _ Hg).
        apply Hp, list_elem_of_In, list_elem_of_lookup. eauto.
      * rewrite list_lookup_insert_ne in Hj by congruence.
        apply Hp, list_elem_of_In, list_elem_of_lookup. eauto.
    + destruct Hm as [Hm|Hm]; rewrite Hm; discriminate.
    + unfold main_step. destruct Hm as [Hm|Hm]; rewrite Hm.
      * destruct (APIStart w _); [|discriminate]. rewrite Hadd.
        intros [= <-]. cbn. auto.
      * intros [= <-]. cbn. auto.
Qed.

End Interleaved.

(** *** The theorems on concrete runs *)

Import Demo Samples.

Lemma scheduledFunc_restores_lock_witness :
  snd (scheduledFunc (globals apiFlags) watched lock0 UpdatePanics []) = Some lock0.
Proof.
  exact (scheduledFunc_restores_lock (globals apiFlags) watched lock0 UpdatePanics []
           eq_refl (le_n 1)).
Defined.


Lemma shutdown_completes_witness :
  main (after waitingForSession) = Draining /\
  sessions (pool (after waitingForSession)) = 1%nat /\
  exists i n st',
    (n <= 3)%nat /\
    exec (globals apiFlags) apiFlags host watched (after waitingForSession)
      (finish_then_main i fine [] n) = Some st' /\
    main st' = Returned None /\ sessions (pool st') = 0%nat /\ exited st' = None.
Proof.
  split; [reflexivity|]. split; [reflexivity|].
  exact (shutdown_completes (globals apiFlags) apiFlags host watched
           (after waitingForSession) fine []
           (LockFacts.reachable_run waitingForSession _ eq_refl) eq_refl).
Defined.

Lemma refused_schedule_never_ticks_witness :
  exec (globals blockingFlags) blockingFlags strictHost watched (initial lock0)
    requestThenGiveUp
  = Some (afterOn blockingFlags strictHost requestThenGiveUp) /\
  cron (afterOn blockingFlags strictHost requestThenGiveUp) = false /\
  forallb (fun gr => is_request (origin gr))
    (pool (afterOn blockingFlags strictHost requestThenGiveUp)) = true /\
  (main (afterOn blockingFlags strictHost requestThenGiveUp) = Starting \/
   main (afterOn blockingFlags strictHost requestThenGiveUp)
   = Returned (Some (errorString "Empty spec string"))).
Proof.
  split; [reflexivity|].
  refine (refused_schedule_never_ticks (globals blockingFlags) blockingFlags
            strictHost watched (afterOn blockingFlags strictHost requestThenGiveUp)
            (errorString "Empty spec string") _ eq_refl).
  exists lock0, requestThenGiveUp. split; reflexivity.
Defined.

End LockMore.
